(** * Almanac retrieval and caching: a shallow embedding

    The development follows three source files:
    - [pkg/calender/calendar_api.py]  (class [CalendarAPI]),
    - [pkg/sqlite/sqlite.py]          (class [SQLiteDB], [get_db]),
    - [agents/calander.py]            (functions [get_calander_info] and
                                       [answer_question]).

    Python values that travel through these functions are JSON values; the
    text stored in the [data] column is produced by [json.dumps] and read
    back by [json.loads], so both are embedded here ([Module Json]).
    Strings are byte strings holding the UTF-8 form of the Python text.

    What the program cannot control is given by an environment ([Env]):
    the answers of the network, the faults of the database and the clock.
    The state it changes is a [World]: the two tables, the singleton of
    the store, and a trace of the requests sent and of the calls of the
    store, kept for the statements only.

    [answer_question] also meets the templates and the language model;
    they are given by a [Host], with the digits of Unicode that are not
    ASCII and the texts of the exceptions of the libraries.

    Left out: Python floats (integers are the only numbers); the calls of
    the logger; faults of [conn.close()], of [conn.rollback()] and of the
    creation of the data directory; exceptions that are not [Exception]s
    (interrupts).  None of them changes which handler an exception of the
    modelled kinds reaches. *)

From Stdlib Require Import ZArith NArith Ascii String List Bool Lia.
From Stdlib Require Import DecimalString DecimalZ DecimalPos DecimalFacts.
From stdpp Require Import base option gmap strings list.

Local Open Scope list_scope.

(** ** Python values *)

Unset Elimination Schemes.
Inductive json : Type :=
| JNull
| JBool (b : bool)
| JNum (z : Z)
| JStr (s : string)
| JArr (l : list json)
| JObj (l : list (string * json)).
Set Elimination Schemes.

(** Induction principle that reaches below lists and dicts. *)
Definition json_ind (P : json -> Prop)
    (fnull : P JNull)
    (fbool : forall b, P (JBool b))
    (fnum : forall z, P (JNum z))
    (fstr : forall s, P (JStr s))
    (farr : forall l, Forall P l -> P (JArr l))
    (fobj : forall l, Forall (fun kv => P (snd kv)) l -> P (JObj l)) :
    forall j, P j :=
  fix F (j : json) : P j :=
    match j with
    | JNull => fnull
    | JBool b => fbool b
    | JNum z => fnum z
    | JStr s => fstr s
    | JArr l =>
        farr l ((fix G (l : list json) : Forall P l :=
                   match l with
                   | [] => List.Forall_nil P
                   | x :: t => List.Forall_cons P x t (F x) (G t)
                   end) l)
    | JObj l =>
        fobj l ((fix G (l : list (string * json)) : Forall (fun kv => P (snd kv)) l :=
                   match l with
                   | [] => List.Forall_nil _
                   | kv :: t => List.Forall_cons _ kv t (F (snd kv)) (G t)
                   end) l)
    end.

(** Python truth value of a value: [None], [False], [0], the empty string,
    list and dict are false. *)
Definition truthy (j : json) : bool :=
  match j with
  | JNull => false
  | JBool b => b
  | JNum z => negb (Z.eqb z 0)
  | JStr s => negb (String.eqb s "")
  | JArr l => match l with [] => false | _ => true end
  | JObj l => match l with [] => false | _ => true end
  end.

(** [d.get(k)] on a dict given as its items in insertion order. *)
Fixpoint dict_get (k : string) (l : list (string * json)) : option json :=
  match l with
  | [] => None
  | (k', v) :: t => if String.eqb k k' then Some v else dict_get k t
  end.

(** [d[k] = v]: a present key keeps its place, a new key goes last. *)
Fixpoint dict_set (k : string) (v : json) (l : list (string * json))
  : list (string * json) :=
  match l with
  | [] => [(k, v)]
  | (k', v') :: t =>
      if String.eqb k k' then (k', v) :: t else (k', v') :: dict_set k v t
  end.

(** [dict(pairs)] for a list of pairs in order of appearance. *)
Definition dict_of_pairs (l : list (string * json)) : list (string * json) :=
  fold_left (fun d kv => dict_set (fst kv) (snd kv) d) l [].

(** A value is a Python value when no dict in it repeats a key. *)
Fixpoint wf_json (j : json) : Prop :=
  match j with
  | JArr l => (fix all (l : list json) : Prop :=
                 match l with [] => True | x :: t => wf_json x /\ all t end) l
  | JObj l => NoDup (map fst l) /\
              (fix all (l : list (string * json)) : Prop :=
                 match l with [] => True | kv :: t => wf_json (snd kv) /\ all t end) l
  | _ => True
  end.

(** ** [json.dumps] and [json.loads] *)

Module Json.

Definition dquote : ascii := "034"%char.
Definition backslash : ascii := "\"%char.

(** *** Encoder: [json.dumps(v, ensure_ascii=False)] *)

Definition hex_digit (n : N) : ascii :=
  match n with
  | 0 => "0" | 1 => "1" | 2 => "2" | 3 => "3" | 4 => "4" | 5 => "5"
  | 6 => "6" | 7 => "7" | 8 => "8" | 9 => "9" | 10 => "a" | 11 => "b"
  | 12 => "c" | 13 => "d" | 14 => "e" | _ => "f"
  end%N%char.

(** [ESCAPE_DCT]: the two-character escapes, and [\u00xx] for the other
    control characters; everything else is copied. *)
Definition escape_char (c : ascii) : string :=
  let n := N_of_ascii c in
  if Ascii.eqb c dquote then String backslash (String dquote "")
  else if Ascii.eqb c backslash then String backslash (String backslash "")
  else if N.eqb n 8 then String backslash "b"
  else if N.eqb n 12 then String backslash "f"
  else if N.eqb n 10 then String backslash "n"
  else if N.eqb n 13 then String backslash "r"
  else if N.eqb n 9 then String backslash "t"
  else if N.ltb n 32 then
    String backslash
      (String "u" (String "0" (String "0"
         (String (hex_digit (N.div n 16)) (String (hex_digit (N.modulo n 16)) "")))))
  else String c "".

Fixpoint escape (s : string) : string :=
  match s with
  | "" => ""
  | String c r => escape_char c +:+ escape r
  end.

Definition encode_str (s : string) : string :=
  String dquote (escape s +:+ String dquote "").

Definition encode_int (z : Z) : string := NilZero.string_of_int (Z.to_int z).

Fixpoint dumps (j : json) : string :=
  match j with
  | JNull => "null"
  | JBool true => "true"
  | JBool false => "false"
  | JNum z => encode_int z
  | JStr s => encode_str s
  | JArr l =>
      "[" +:+
      match l with
      | [] => ""
      | x :: t =>
          dumps x +:+
          (fix rest (t : list json) : string :=
             match t with
             | [] => ""
             | y :: t' => ", " +:+ dumps y +:+ rest t'
             end) t
      end +:+ "]"
  | JObj l =>
      "{" +:+
      match l with
      | [] => ""
      | (k, v) :: t =>
          encode_str k +:+ ": " +:+ dumps v +:+
          (fix rest (t : list (string * json)) : string :=
             match t with
             | [] => ""
             | (k', v') :: t' =>
                 ", " +:+ encode_str k' +:+ ": " +:+ dumps v' +:+ rest t'
             end) t
      end +:+ "}"
  end.

(** [json.dumps(v, ensure_ascii=False, indent=2)]: one item per line. *)
Fixpoint spaces (n : nat) : string :=
  match n with O => "" | S k => String " " (spaces k) end.

Definition newline_indent (level : nat) : string :=
  String "010"%char (spaces (2 * level)).

Fixpoint dumps_indent (level : nat) (j : json) : string :=
  match j with
  | JArr l =>
      match l with
      | [] => "[]"
      | x :: t =>
          "[" +:+ newline_indent (S level) +:+ dumps_indent (S level) x +:+
          (fix rest (t : list json) : string :=
             match t with
             | [] => ""
             | y :: t' =>
                 "," +:+ newline_indent (S level) +:+ dumps_indent (S level) y
                 +:+ rest t'
             end) t
          +:+ newline_indent level +:+ "]"
      end
  | JObj l =>
      match l with
      | [] => "{}"
      | (k, v) :: t =>
          "{" +:+ newline_indent (S level) +:+ encode_str k +:+ ": "
          +:+ dumps_indent (S level) v +:+
          (fix rest (t : list (string * json)) : string :=
             match t with
             | [] => ""
             | (k', v') :: t' =>
                 "," +:+ newline_indent (S level) +:+ encode_str k' +:+ ": "
                 +:+ dumps_indent (S level) v' +:+ rest t'
             end) t
          +:+ newline_indent level +:+ "}"
      end
  | _ => dumps j
  end.

(** *** Decoder: [json.loads(text)]

    The decoder follows the scanner of the standard library: values inside
    containers are separated by commas with optional white space, strings
    are read in strict mode (no raw control character), a number is
    an optional minus sign, then 0 or a digit string with no leading 0.
    Number literals with a fraction or an exponent and
    the constants [NaN] and [Infinity] denote Python floats, which this
    development does not represent: [loads] rejects them. *)

Definition is_ws (c : ascii) : bool :=
  Ascii.eqb c " " || Ascii.eqb c "009" || Ascii.eqb c "010" || Ascii.eqb c "013".

Fixpoint skip_ws (s : string) : string :=
  match s with
  | "" => ""
  | String c r => if is_ws c then skip_ws r else s
  end.

Fixpoint strip_prefix (p s : string) : option string :=
  match p with
  | "" => Some s
  | String a p' =>
      match s with
      | "" => None
      | String b s' => if Ascii.eqb a b then strip_prefix p' s' else None
      end
  end.

Definition digit (c : ascii) : option (Decimal.uint -> Decimal.uint) :=
  match c with
  | "0" => Some Decimal.D0 | "1" => Some Decimal.D1 | "2" => Some Decimal.D2
  | "3" => Some Decimal.D3 | "4" => Some Decimal.D4 | "5" => Some Decimal.D5
  | "6" => Some Decimal.D6 | "7" => Some Decimal.D7 | "8" => Some Decimal.D8
  | "9" => Some Decimal.D9 | _ => None
  end%char.

Fixpoint scan_digits (s : string) : Decimal.uint * string :=
  match s with
  | "" => (Decimal.Nil, "")
  | String c r =>
      match digit c with
      | Some d => let (u, r') := scan_digits r in (d u, r')
      | None => (Decimal.Nil, s)
      end
  end.

(** What may not follow the integer part: a fraction or an exponent. *)
Definition float_mark (s : string) : bool :=
  match s with
  | "" => false
  | String c _ => Ascii.eqb c "." || Ascii.eqb c "e" || Ascii.eqb c "E"
  end.

Definition parse_uint (s : string) : option (Decimal.uint * string) :=
  match s with
  | "" => None
  | String c r =>
      if Ascii.eqb c "0" then
        if float_mark r then None else Some (Decimal.D0 Decimal.Nil, r)
      else
        match digit c with
        | None => None
        | Some _ =>
            let (u, r') := scan_digits s in
            if float_mark r' then None else Some (u, r')
        end
  end.

Definition parse_int (s : string) : option (Z * string) :=
  match s with
  | "" => None
  | String c r =>
      if Ascii.eqb c "-" then
        match parse_uint r with
        | Some (u, r') => Some (Z.of_int (Decimal.Neg u), r')
        | None => None
        end
      else
        match parse_uint s with
        | Some (u, r') => Some (Z.of_int (Decimal.Pos u), r')
        | None => None
        end
  end.

Definition hex_val (c : ascii) : option N :=
  let n := N_of_ascii c in
  if (48 <=? n)%N && (n <=? 57)%N then Some (n - 48)%N
  else if (97 <=? n)%N && (n <=? 102)%N then Some (n - 87)%N
  else if (65 <=? n)%N && (n <=? 70)%N then Some (n - 55)%N
  else None.

Definition hex4 (a b c d : ascii) : option N :=
  match hex_val a, hex_val b, hex_val c, hex_val d with
  | Some x, Some y, Some z, Some w => Some (((x * 16 + y) * 16 + z) * 16 + w)%N
  | _, _, _, _ => None
  end.

(** UTF-8 form of a code point (the text is held as UTF-8 bytes). *)
Definition utf8 (cp : N) (tail : string) : string :=
  let byte n := ascii_of_N n in
  (if cp <? 128 then String (byte cp) tail
   else if cp <? 2048 then
     String (byte (192 + cp / 64)) (String (byte (128 + cp mod 64)) tail)
   else if cp <? 65536 then
     String (byte (224 + cp / 4096))
       (String (byte (128 + (cp / 64) mod 64)) (String (byte (128 + cp mod 64)) tail))
   else
     String (byte (240 + cp / 262144))
       (String (byte (128 + (cp / 4096) mod 64))
          (String (byte (128 + (cp / 64) mod 64))
             (String (byte (128 + cp mod 64)) tail))))%N.

Definition unescape (e : ascii) : option ascii :=
  if Ascii.eqb e dquote then Some dquote
  else if Ascii.eqb e backslash then Some backslash
  else if Ascii.eqb e "/" then Some "/"%char
  else if Ascii.eqb e "b" then Some "008"%char
  else if Ascii.eqb e "f" then Some "012"%char
  else if Ascii.eqb e "n" then Some "010"%char
  else if Ascii.eqb e "r" then Some "013"%char
  else if Ascii.eqb e "t" then Some "009"%char
  else None.

Definition on_fst {A B C} (f : A -> C) (r : option (A * B)) : option (C * B) :=
  match r with
  | Some (a, b) => Some (f a, b)
  | None => None
  end.

(** The body of a string literal, after its opening quote. *)
Fixpoint parse_string (s : string) : option (string * string) :=
  match s with
  | "" => None
  | String c r =>
      if Ascii.eqb c dquote then Some ("", r)
      else if Ascii.eqb c backslash then
        match r with
        | "" => None
        | String e r1 =>
            if Ascii.eqb e "u" then
              match r1 with
              | String h1 (String h2 (String h3 (String h4 r2))) =>
                  match hex4 h1 h2 h3 h4 with
                  | None => None
                  | Some cp =>
                      if (55296 <=? cp)%N && (cp <=? 56319)%N then
                        match r2 with
                        | String b (String u (String g1 (String g2 (String g3 (String g4 r3))))) =>
                            if Ascii.eqb b backslash && Ascii.eqb u "u" then
                              match hex4 g1 g2 g3 g4 with
                              | None => None
                              | Some lo =>
                                  if (56320 <=? lo)%N && (lo <=? 57343)%N then
                                    on_fst (utf8 (65536 + (cp - 55296) * 1024 + (lo - 56320))%N)
                                           (parse_string r3)
                                  else on_fst (utf8 cp) (parse_string r2)
                              end
                            else on_fst (utf8 cp) (parse_string r2)
                        | _ => on_fst (utf8 cp) (parse_string r2)
                        end
                      else on_fst (utf8 cp) (parse_string r2)
                  end
              | _ => None
              end
            else
              match unescape e with
              | Some c' => on_fst (String c') (parse_string r1)
              | None => None
              end
        end
      else if (N_of_ascii c <? 32)%N then None
      else on_fst (String c) (parse_string r)
  end.

Fixpoint parse_value (n : nat) (s : string) {struct n} : option (json * string) :=
  match n with
  | O => None
  | S n' =>
      match s with
      | "" => None
      | String c r =>
          if Ascii.eqb c dquote then on_fst JStr (parse_string r)
          else if Ascii.eqb c "{" then
            match skip_ws r with
            | "" => None
            | String c1 r1 =>
                if Ascii.eqb c1 "}" then Some (JObj [], r1)
                else on_fst (fun kvs => JObj (dict_of_pairs kvs))
                            (parse_members n' (String c1 r1))
            end
          else if Ascii.eqb c "[" then
            match skip_ws r with
            | "" => None
            | String c1 r1 =>
                if Ascii.eqb c1 "]" then Some (JArr [], r1)
                else on_fst JArr (parse_elems n' (String c1 r1))
            end
          else
            match strip_prefix "null" s with
            | Some r' => Some (JNull, r')
            | None =>
            match strip_prefix "true" s with
            | Some r' => Some (JBool true, r')
            | None =>
            match strip_prefix "false" s with
            | Some r' => Some (JBool false, r')
            | None => on_fst JNum (parse_int s)
            end end end
      end
  end
with parse_elems (n : nat) (s : string) {struct n} : option (list json * string) :=
  match n with
  | O => None
  | S n' =>
      match parse_value n' s with
      | None => None
      | Some (v, r) =>
          match skip_ws r with
          | "" => None
          | String c r1 =>
              if Ascii.eqb c "," then on_fst (cons v) (parse_elems n' (skip_ws r1))
              else if Ascii.eqb c "]" then Some ([v], r1)
              else None
          end
      end
  end
with parse_members (n : nat) (s : string) {struct n}
  : option (list (string * json) * string) :=
  match n with
  | O => None
  | S n' =>
      match s with
      | "" => None
      | String q r =>
          if Ascii.eqb q dquote then
            match parse_string r with
            | None => None
            | Some (k, r1) =>
                match skip_ws r1 with
                | "" => None
                | String c1 r2 =>
                    if Ascii.eqb c1 ":" then
                      match parse_value n' (skip_ws r2) with
                      | None => None
                      | Some (v, r3) =>
                          match skip_ws r3 with
                          | "" => None
                          | String c2 r4 =>
                              if Ascii.eqb c2 "," then
                                on_fst (cons (k, v)) (parse_members n' (skip_ws r4))
                              else if Ascii.eqb c2 "}" then Some ([(k, v)], r4)
                              else None
                          end
                      end
                    else None
                end
            end
          else None
      end
  end.

(** [json.loads]: one value, white space around it, nothing else.  [None]
    stands for [JSONDecodeError]. *)
Definition loads (s : string) : option json :=
  let s1 := skip_ws s in
  match parse_value (2 * String.length s1 + 2) s1 with
  | Some (v, r) => match skip_ws r with "" => Some v | _ => None end
  | None => None
  end.

(** *** The shape of encoded text, for the facts about [loads] *)

(** The characters that follow a value inside the output of [dumps]. *)
Definition delimited (s : string) : Prop :=
  match s with
  | "" => True
  | String c _ => c = ","%char \/ c = "]"%char \/ c = "}"%char
  end.

(** The items of a list after the first. *)
Fixpoint arr_tail (t : list json) : string :=
  match t with
  | [] => ""
  | y :: t' => ", " +:+ dumps y +:+ arr_tail t'
  end.

(** The members of a dict after the first. *)
Fixpoint obj_tail (t : list (string * json)) : string :=
  match t with
  | [] => ""
  | (k, v) :: t' => ", " +:+ encode_str k +:+ ": " +:+ dumps v +:+ obj_tail t'
  end.

(** One member of a dict and what follows it. *)
Definition member_text (k : string) (v : json) (tl : string) : string :=
  String dquote
    (escape k +:+ String dquote (String ":" (String " " (dumps v +:+ tl)))).

(** [j] is read back from its encoding, whatever delimiter follows. *)
Definition reads_back (j : json) : Prop :=
  forall n rest,
    String.length (dumps j) <= n -> delimited rest ->
    parse_value n (dumps j +:+ rest) = Some (j, rest).

End Json.

(** ** String helpers of the Python code *)

(** [str(n)] for an int. *)
Definition str_int (z : Z) : string := NilZero.string_of_int (Z.to_int z).

(** [f"{n:02d}"]: zero padding up to width 2, the sign counts. *)
Definition fmt_02d (z : Z) : string :=
  let s := str_int z in
  if Nat.ltb (String.length s) 2 then "0" +:+ s else s.

(** [s.replace(old, new)] for a non-empty [old]: leftmost matches, not
    overlapping; [skip] counts the characters of a match still to drop. *)
Fixpoint replace_from (old new : string) (skip : nat) (s : string) : string :=
  match s with
  | "" => ""
  | String c r =>
      match skip with
      | S k => replace_from old new k r
      | O =>
          if String.prefix old s
          then new +:+ replace_from old new (String.length old - 1) r
          else String c (replace_from old new 0 r)
      end
  end.

Definition replace (old new s : string) : string := replace_from old new 0 s.

(** [s.rstrip(c)] for a single character [c]. *)
Fixpoint rstrip (c : ascii) (s : string) : string :=
  match s with
  | "" => ""
  | String a r =>
      match rstrip c r with
      | "" => if Ascii.eqb a c then "" else String a ""
      | r' => String a r'
      end
  end.

(** ** The world around the program *)

(** The two record families, one table each. *)
Inductive family : Type := Day | Hour.

(** A row of [day_calendar] or [hour_calendar]; [date] is the key of the
    table, the surrogate [id] is never read by the program and is left out.
    [data] is a nullable TEXT column. *)
Record row : Type := Row {
  data : option string;
  create_time : string;
  update_time : string
}.

(** Where a database operation can fail: opening the connection, the n-th
    [execute] on it, or the commit. *)
Inductive fault : Type :=
| FConnect
| FExecute (n : nat)
| FCommit.

(** What [requests.get] meets: no answer, or an answer with a status and a
    body. *)
Inductive http_response : Type :=
| ConnectionError (msg : string)
| Response (status : nat) (body : string).

Record request : Type := Request {
  url : option string;
  params : list (string * string)
}.

Inductive endpoint : Type :=
| Discovery
| Calendar (f : family).

(** Exceptions.  [Refused msg data] is [Exception(f"{msg}{data}")];
    [Wrapped msg cause] is [Exception(f"{msg}{str(e)}")] raised inside
    [except Exception as e], so [cause] is the exception it was raised
    from. *)
Inductive exn : Type :=
| RequestException (msg : string)
| HTTPError (status : nat)
| JSONDecodeError (doc : string)
| AttributeError (v : json) (attr : string)
| DatabaseError (f : fault)
| Refused (msg : string) (data : json)
| Wrapped (msg : string) (cause : exn).

(** What an observer of the process sees: requests sent (with their index
    in the sequence of requests) and calls of the store's interface. *)
Inductive event : Type :=
| EvRequest (e : endpoint) (n : nat) (r : request)
| EvGet (f : family) (date : string)
| EvSave (f : family) (date : string) (ok : bool).

(** The part of the world the program does not control: the process
    environment, the network ([net n r] answers the n-th request of the
    process when it is [r]), the faults of the database ([db_fault k] for
    the k-th connection) and the local clock read during the k-th
    connection. *)
Record Env : Type := {
  CALENDAR_BASE_URL : option string;
  CALENDAR_API_ID : option string;
  CALENDAR_API_KEY : option string;
  net : nat -> request -> http_response;
  db_fault : nat -> option fault;
  clock : nat -> string
}.

(** The state the program changes: the two tables of [data/calendar.db],
    the module-level singleton [_db_instance] (is it set?), and the
    counters and the trace of the observer. *)
Record World : Type := {
  day_calendar : gmap string row;
  hour_calendar : gmap string row;
  db_instance : bool;
  requests_made : nat;
  db_ops : nat;
  trace : list event
}.

Definition table (f : family) (w : World) : gmap string row :=
  match f with Day => day_calendar w | Hour => hour_calendar w end.

(** ** Computations that change a state and may raise *)

Inductive res (A : Type) : Type :=
| Ok (a : A)
| Raise (e : exn).
Arguments Ok {A} a.
Arguments Raise {A} e.

Definition M (S A : Type) : Type := S -> res A * S.

Definition ret {S A} (a : A) : M S A := fun s => (Ok a, s).

Definition raise {S A} (e : exn) : M S A := fun s => (Raise e, s).

Definition bind {S A B} (m : M S A) (k : A -> M S B) : M S B :=
  fun s =>
    match m s with
    | (Ok a, s') => k a s'
    | (Raise e, s') => (Raise e, s')
    end.

Notation "x <- m ;; k" := (bind m (fun x => k))
  (at level 60, m at next level, right associativity).
Notation "m ;;; k" := (bind m (fun _ => k))
  (at level 60, right associativity).

Definition get_state {S} : M S S := fun s => (Ok s, s).

Definition of_res {S A} (r : res A) : M S A := fun s => (r, s).

(** [try: m except Exception as e: h e] *)
Definition try_except {S A} (m : M S A) (h : exn -> M S A) : M S A :=
  fun s =>
    match m s with
    | (Ok a, s') => (Ok a, s')
    | (Raise e, s') => h e s'
    end.

(** [try: m except Exception as e: raise Exception(f"{msg}{str(e)}")] *)
Definition try_wrap {S A} (msg : string) (m : M S A) : M S A :=
  try_except m (fun e => raise (Wrapped msg e)).

(** A computation on the world, run by a method of an object [O]. *)
Definition liftW {O A} (m : M World A) : M (O * World) A :=
  fun s =>
    match m (snd s) with
    | (r, w') => (r, (fst s, w'))
    end.

Definition log (ev : event) : M World unit :=
  fun w =>
    (Ok tt,
     {| day_calendar := day_calendar w; hour_calendar := hour_calendar w;
        db_instance := db_instance w; requests_made := requests_made w;
        db_ops := db_ops w; trace := trace w ++ [ev] |}).

(** ** [pkg/sqlite/sqlite.py] *)

Module SQLiteDB.

(** An open connection: the working copy of the two tables, the number of
    statements executed on it, the fault it is due to meet and its index
    among the connections of the process. *)
Record conn : Type := Conn {
  c_day : gmap string row;
  c_hour : gmap string row;
  c_execs : nat;
  c_fault : option fault;
  c_op : nat
}.

Definition c_table (f : family) (c : conn) : gmap string row :=
  match f with Day => c_day c | Hour => c_hour c end.

Definition c_set_table (f : family) (t : gmap string row) (c : conn) : conn :=
  match f with
  | Day => Conn t (c_hour c) (c_execs c) (c_fault c) (c_op c)
  | Hour => Conn (c_day c) t (c_execs c) (c_fault c) (c_op c)
  end.

(** [cursor.execute(stmt)]: raises when this is the statement the fault
    names, else runs [stmt] on the working copy. *)
Definition execute {A} (stmt : conn -> A * conn) : M conn A :=
  fun c =>
    let run :=
      match stmt c with
      | (a, c') =>
          (Ok a, Conn (c_day c') (c_hour c') (S (c_execs c')) (c_fault c') (c_op c'))
      end in
    match c_fault c with
    | Some (FExecute n) =>
        if Nat.eqb n (c_execs c) then (Raise (DatabaseError (FExecute n)), c) else run
    | _ => run
    end.

(** [conn.commit()] called by the body itself. *)
Definition commit : M conn unit :=
  fun c =>
    match c_fault c with
    | Some FCommit => (Raise (DatabaseError FCommit), c)
    | _ => (Ok tt, c)
    end.

(** [SELECT ... FROM <family>_calendar WHERE date = ?] then [fetchone()]. *)
Definition select_by_date (f : family) (date : string) (c : conn)
  : option row * conn :=
  (c_table f c !! date, c).

(** [INSERT INTO <family>_calendar (date, data, create_time, update_time)
     VALUES (?, ?, ?, ?) ON CONFLICT(date) DO UPDATE SET
     data = excluded.data, update_time = excluded.update_time] *)
Definition upsert (date data_str now : string) (t : gmap string row)
  : gmap string row :=
  match t !! date with
  | None => <[date := Row (Some data_str) now now]> t
  | Some r => <[date := Row (Some data_str) (create_time r) now]> t
  end.

Definition insert_on_conflict (f : family) (date data_str now : string) (c : conn)
  : unit * conn :=
  (tt, c_set_table f (upsert date data_str now (c_table f c)) c).

(** [CREATE TABLE IF NOT EXISTS], [CREATE UNIQUE INDEX IF NOT EXISTS],
    [SELECT 1]: no change to the rows. *)
Definition no_row_change (c : conn) : unit * conn := (tt, c).

Section Store.
Variable env : Env.

(** [get_local_timestamp()] inside a connection. *)
Definition get_local_timestamp : M conn string :=
  fun c => (Ok (clock env (c_op c)), c).

(** The context manager [get_connection]: connect, run the body, commit;
    on an exception roll back and raise it again; close in both cases. *)
Definition get_connection {A} (body : M conn A) : M World A :=
  fun w =>
    let k := db_ops w in
    let flt := db_fault env k in
    let opened :=
      {| day_calendar := day_calendar w; hour_calendar := hour_calendar w;
         db_instance := db_instance w; requests_made := requests_made w;
         db_ops := S k; trace := trace w |} in
    match flt with
    | Some FConnect => (Raise (DatabaseError FConnect), opened)
    | _ =>
        match body (Conn (day_calendar w) (hour_calendar w) 0 flt k) with
        | (Raise e, _) => (Raise e, opened)
        | (Ok a, c) =>
            match flt with
            | Some FCommit => (Raise (DatabaseError FCommit), opened)
            | _ =>
                (Ok a,
                 {| day_calendar := c_day c; hour_calendar := c_hour c;
                    db_instance := db_instance w; requests_made := requests_made w;
                    db_ops := S k; trace := trace w |})
            end
        end
    end.

(** [_init_connection]: connect, [SELECT 1], close; an exception is logged
    and raised again. *)
Definition _init_connection : M World unit :=
  fun w =>
    let k := db_ops w in
    let opened :=
      {| day_calendar := day_calendar w; hour_calendar := hour_calendar w;
         db_instance := db_instance w; requests_made := requests_made w;
         db_ops := S k; trace := trace w |} in
    match db_fault env k with
    | Some FConnect => (Raise (DatabaseError FConnect), opened)
    | Some (FExecute 0) => (Raise (DatabaseError (FExecute 0)), opened)
    | _ => (Ok tt, opened)
    end.

(** [_init_tables]: both tables and both unique indexes, if absent. *)
Definition _init_tables : M World unit :=
  get_connection
    (execute no_row_change ;;;
     execute no_row_change ;;;
     execute no_row_change ;;;
     execute no_row_change ;;;
     commit).

(** [SQLiteDB.__init__] *)
Definition __init__ : M World unit :=
  _init_connection ;;; _init_tables.

(** [get_day_calendar] and [get_hour_calendar] are the same text up to the
    table name and the log message; [get_calendar f] is that text. *)
Definition get_calendar (f : family) (date : string) : M World json :=
  log (EvGet f date) ;;;
  try_except
    (get_connection
       (row <- execute (select_by_date f date) ;;
        match row with
        | Some r =>
            match data r with
            | Some data_str =>
                if negb (String.eqb data_str "") then
                  match Json.loads data_str with
                  | Some v => ret v
                  | None => raise (JSONDecodeError data_str)
                  end
                else ret JNull
            | None => ret JNull
            end
        | None => ret JNull
        end))
    (fun e => ret JNull).

Definition get_day_calendar (date : string) : M World json :=
  get_calendar Day date.

Definition get_hour_calendar (date : string) : M World json :=
  get_calendar Hour date.

(** [save_day_calendar] and [save_hour_calendar], likewise. *)
Definition save_calendar (f : family) (date : string) (data : json) : M World bool :=
  ok <- try_except
          (get_connection
             (existing_row <- execute (select_by_date f date) ;;
              let old_update_time := option_map update_time existing_row in
              let data_str := Json.dumps data in
              current_time <- get_local_timestamp ;;
              execute (insert_on_conflict f date data_str current_time) ;;;
              ret true))
          (fun e => ret false) ;;
  log (EvSave f date ok) ;;;
  ret ok.

Definition save_day_calendar (date : string) (data : json) : M World bool :=
  save_calendar Day date data.

Definition save_hour_calendar (date : string) (data : json) : M World bool :=
  save_calendar Hour date data.

(** [get_db]: the singleton, built on first use. *)
Definition get_db : M World unit :=
  fun w =>
    if db_instance w then (Ok tt, w)
    else
      match __init__ w with
      | (Ok _, w') =>
          (Ok tt,
           {| day_calendar := day_calendar w'; hour_calendar := hour_calendar w';
              db_instance := true; requests_made := requests_made w';
              db_ops := db_ops w'; trace := trace w' |})
      | (Raise e, w') => (Raise e, w')
      end.

End Store.
End SQLiteDB.

(** ** [pkg/calender/calendar_api.py] *)

Module CalendarAPI.

(** The attributes of an instance. *)
Record t : Type := Self {
  api_base_url : option string;
  current_ip : option string;
  id : string;
  key : string
}.

(** [str(x)] of an attribute that may be [None]. *)
Definition str_opt (o : option string) : string :=
  match o with Some s => s | None => "None" end.

(** [not self.current_ip] *)
Definition no_ip (o : option string) : bool :=
  match o with
  | None => true
  | Some s => String.eqb s ""
  end.

(** [data.get(k)] *)
Definition py_get (data : json) (k : string) : res json :=
  match data with
  | JObj l => Ok (default JNull (dict_get k l))
  | _ => Raise (AttributeError data "get")
  end.

(** [v == 200] *)
Definition eq_200 (v : json) : bool :=
  match v with
  | JNum z => Z.eqb z 200
  | _ => false
  end.

(** [k in data] for a dict [data]. *)
Definition py_in (k : string) (data : json) : bool :=
  match data with
  | JObj l => match dict_get k l with Some _ => true | None => false end
  | _ => false
  end.

(** [response.raise_for_status()] *)
Definition raise_for_status (status : nat) : res unit :=
  if Nat.leb 400 status && Nat.ltb status 600 then Raise (HTTPError status)
  else Ok tt.

(** [response.json()] *)
Definition response_json (body : string) : res json :=
  match Json.loads body with
  | Some v => Ok v
  | None => Raise (JSONDecodeError body)
  end.

(** The address in the [api] field:
    [api_url.replace("http://", "").replace("https://", "").rstrip("/")] *)
Definition address_of (api_url : json) : res string :=
  match api_url with
  | JStr u => Ok (rstrip "/" (replace "https://" "" (replace "http://" "" u)))
  | v => Raise (AttributeError v "replace")
  end.

Definition resolution_refusal : string := "获取API地址失败: ".
Definition resolution_error : string := "获取最优API地址时出错: ".
Definition day_path : string := "/api/time/getzdday.php".
Definition hour_path : string := "/api/time/getzddayh.php".
Definition day_refusal : string := "获取黄历信息失败: ".
Definition hour_refusal : string := "获取时辰黄历信息失败: ".
Definition day_error : string := "获取日期黄历信息时出错: ".
Definition hour_error : string := "获取时辰黄历信息时出错: ".

(** What the [try] block of [get_optimal_api_ip] makes of the answer. *)
Definition discovery_result (r : http_response) : res string :=
  match r with
  | ConnectionError msg => Raise (RequestException msg)
  | Response status body =>
      match raise_for_status status with
      | Raise e => Raise e
      | Ok _ =>
          match response_json body with
          | Raise e => Raise e
          | Ok data =>
              match py_get data "code" with
              | Raise e => Raise e
              | Ok code =>
                  if eq_200 code && py_in "api" data then
                    match py_get data "api" with
                    | Raise e => Raise e
                    | Ok api_url => address_of api_url
                    end
                  else Raise (Refused resolution_refusal data)
              end
          end
      end
  end.

(** What the [try] block of a fetch makes of the answer; [refusal] is the
    message of the [else] branch. *)
Definition fetch_result (refusal : string) (r : http_response) : res json :=
  match r with
  | ConnectionError msg => Raise (RequestException msg)
  | Response status body =>
      match raise_for_status status with
      | Raise e => Raise e
      | Ok _ =>
          match response_json body with
          | Raise e => Raise e
          | Ok data =>
              match py_get data "code" with
              | Raise e => Raise e
              | Ok code =>
                  if eq_200 code then Ok data
                  else Raise (Refused refusal data)
              end
          end
      end
  end.

Section Client.
Variable env : Env.

(** [CalendarAPI()] *)
Definition __init__ : t :=
  {| api_base_url := CALENDAR_BASE_URL env;
     current_ip := None;
     id := default "" (CALENDAR_API_ID env);
     key := default "" (CALENDAR_API_KEY env) |}.

(** [requests.get(url, params=params, timeout=10)]: the request goes out,
    the network answers. *)
Definition requests_get (e : endpoint) (r : request) : M World http_response :=
  fun w =>
    let n := requests_made w in
    (Ok (net env n r),
     {| day_calendar := day_calendar w; hour_calendar := hour_calendar w;
        db_instance := db_instance w; requests_made := S n;
        db_ops := db_ops w; trace := trace w ++ [EvRequest e n r] |}).

Definition discovery_request (self : t) : request :=
  Request (api_base_url self) [].

Definition set_current_ip (ip : string) : M (t * World) unit :=
  fun s =>
    (Ok tt,
     (Self (api_base_url (fst s)) (Some ip) (id (fst s)) (key (fst s)), snd s)).

Definition get_optimal_api_ip : M (t * World) string :=
  try_wrap resolution_error
    (s <- get_state ;;
     response <- liftW (requests_get Discovery (discovery_request (fst s))) ;;
     ip <- of_res (discovery_result response) ;;
     set_current_ip ip ;;;
     ret ip).

Definition ensure_ip : M (t * World) unit :=
  s <- get_state ;;
  if no_ip (current_ip (fst s)) then get_optimal_api_ip ;;; ret tt
  else ret tt.

Definition calendar_request (path : string) (self : t) (year month day : Z) : request :=
  Request (Some ("http://" +:+ str_opt (current_ip self) +:+ path))
          [("id", id self); ("key", key self);
           ("nian", str_int year); ("yue", str_int month); ("ri", str_int day)].

(** The text shared by [get_day_calendar] and [get_hour_calendar]. *)
Definition get_calendar (f : family) (path refusal error : string)
    (year month day : Z) : M (t * World) json :=
  ensure_ip ;;;
  s <- get_state ;;
  try_wrap error
    (response <- liftW (requests_get (Calendar f)
                          (calendar_request path (fst s) year month day)) ;;
     of_res (fetch_result refusal response)).

Definition get_day_calendar (year month day : Z) : M (t * World) json :=
  get_calendar Day day_path day_refusal day_error year month day.

Definition get_hour_calendar (year month day : Z) : M (t * World) json :=
  get_calendar Hour hour_path hour_refusal hour_error year month day.

End Client.
End CalendarAPI.

(** ** [agents/calander.py] *)

Section Agent.
Variable env : Env.

(** [api = CalendarAPI()], then the statements that use [api]. *)
Definition with_api {A} (m : M (CalendarAPI.t * World) A) : M World A :=
  fun w =>
    match m (CalendarAPI.__init__ env, w) with
    | (r, s) => (r, snd s)
    end.

(** [f"{year}-{month:02d}-{day:02d}"] *)
Definition date_str (year month day : Z) : string :=
  str_int year +:+ "-" +:+ fmt_02d month +:+ "-" +:+ fmt_02d day.

(** [json.dumps({"day_info": ..., "hour_info": ...}, ensure_ascii=False, indent=2)] *)
Definition calendar_data (day_info hour_info : json) : string :=
  Json.dumps_indent 0 (JObj [("day_info", day_info); ("hour_info", hour_info)]).

Definition retrieval_error : string := "获取数据失败: ".

Definition get_calander_info (year month day : Z) (force_refresh : bool)
  : M World string :=
  try_wrap retrieval_error
    (let date := date_str year month day in
     SQLiteDB.get_db env ;;;
     if force_refresh then
       with_api
         (day_info <- CalendarAPI.get_day_calendar env year month day ;;
          liftW (SQLiteDB.save_day_calendar env date day_info) ;;;
          hour_info <- CalendarAPI.get_hour_calendar env year month day ;;
          liftW (SQLiteDB.save_hour_calendar env date hour_info) ;;;
          ret (calendar_data day_info hour_info))
     else
       day_info <- SQLiteDB.get_day_calendar env date ;;
       hour_info <- SQLiteDB.get_hour_calendar env date ;;
       if truthy day_info && truthy hour_info then
         ret (calendar_data day_info hour_info)
       else
         with_api
           (day_info <-
              (if negb (truthy day_info) then
                 day_info <- CalendarAPI.get_day_calendar env year month day ;;
                 liftW (SQLiteDB.save_day_calendar env date day_info) ;;;
                 ret day_info
               else ret day_info) ;;
            hour_info <-
              (if negb (truthy hour_info) then
                 hour_info <- CalendarAPI.get_hour_calendar env year month day ;;
                 liftW (SQLiteDB.save_hour_calendar env date hour_info) ;;;
                 ret hour_info
               else ret hour_info) ;;
            ret (calendar_data day_info hour_info))).

End Agent.

(** ** Vocabulary of the statements *)

(** Does the fault of a connection strike a body that executes [execs]
    statements and then commits? *)
Definition fault_hits (execs : nat) (flt : option fault) : bool :=
  match flt with
  | None => false
  | Some FConnect => true
  | Some (FExecute n) => Nat.ltb n execs
  | Some FCommit => true
  end.

(** The value a row, or its absence, stands for when it is read. *)
Definition decode_row (r : option row) : json :=
  match r with
  | Some (Row (Some s) _ _) =>
      if String.eqb s "" then JNull
      else match Json.loads s with Some v => v | None => JNull end
  | _ => JNull
  end.

(** The world after the store was called: tables [d] and [h], one more
    connection, one more event. *)
Definition after_db (d h : gmap string row) (ev : event) (w : World) : World :=
  {| day_calendar := d; hour_calendar := h;
     db_instance := db_instance w; requests_made := requests_made w;
     db_ops := S (db_ops w); trace := trace w ++ [ev] |}.

Definition set_table (f : family) (t : gmap string row) (w : World)
  : gmap string row * gmap string row :=
  match f with
  | Day => (t, hour_calendar w)
  | Hour => (day_calendar w, t)
  end.

(** The world after a request was sent. *)
Definition after_request (e : endpoint) (r : request) (w : World) : World :=
  {| day_calendar := day_calendar w; hour_calendar := hour_calendar w;
     db_instance := db_instance w; requests_made := S (requests_made w);
     db_ops := db_ops w; trace := trace w ++ [EvRequest e (requests_made w) r] |}.


(** An instance once it holds an address. *)
Definition resolved (self : CalendarAPI.t) (ip : string) : CalendarAPI.t :=
  CalendarAPI.Self (CalendarAPI.api_base_url self) (Some ip)
                   (CalendarAPI.id self) (CalendarAPI.key self).


(** The world after a sequence of saves, each on its family and date. *)
Fixpoint saves (env : Env) (ops : list (family * string * json)) (w : World) : World :=
  match ops with
  | [] => w
  | (f, date, data) :: t =>
      saves env t (snd (SQLiteDB.save_calendar env f date data w))
  end.


(** [ensure_ip] called [k] times in a row on an instance. *)
Fixpoint ensure_ip_times (env : Env) (k : nat) (s : CalendarAPI.t * World)
  : CalendarAPI.t * World :=
  match k with
  | O => s
  | S k' => ensure_ip_times env k' (snd (CalendarAPI.ensure_ip env s))
  end.





(** The method of the client for a family, and the one step of
    [get_calander_info] that fills a missing family: fetch, save, use the
    fetched record; a record found in the store is used as it is. *)
Definition api_get (env : Env) (f : family) : Z -> Z -> Z -> M (CalendarAPI.t * World) json :=
  match f with
  | Day => CalendarAPI.get_day_calendar env
  | Hour => CalendarAPI.get_hour_calendar env
  end.


Definition refusal_of (f : family) : string :=
  match f with Day => CalendarAPI.day_refusal | Hour => CalendarAPI.hour_refusal end.

Definition path_of (f : family) : string :=
  match f with Day => CalendarAPI.day_path | Hour => CalendarAPI.hour_path end.





(** ** Sample worlds *)

Definition sample_date : string := "2025-01-01".

Definition sample_day : json :=
  JObj [("code", JNum 200); ("yi", JStr "嫁娶"); ("ji", JArr [JStr "动土"])].

Definition sample_hour : json :=
  JObj [("code", JNum 200); ("zi", JObj [("luck", JStr "吉")])].

Definition sample_discovery (api : string) : json :=
  JObj [("code", JNum 200); ("api", JStr api)].

(** A network where discovery names [api] and the two calendar paths of
    the address [ip] answer with the sample records. *)
Definition sample_net (api ip : string) (n : nat) (r : request) : http_response :=
  if decide (url r = Some "http://discovery.test/") then
    Response 200 (Json.dumps (sample_discovery api))
  else if decide (url r = Some ("http://" +:+ ip +:+ CalendarAPI.day_path)) then
    Response 200 (Json.dumps sample_day)
  else if decide (url r = Some ("http://" +:+ ip +:+ CalendarAPI.hour_path)) then
    Response 200 (Json.dumps sample_hour)
  else ConnectionError "no route to host".

Definition sample_clock (k : nat) : string :=
  "2025-01-01 08:00:0" +:+ str_int (Z.of_nat k).

Definition sample_env (faults : nat -> option fault) : Env :=
  {| CALENDAR_BASE_URL := Some "http://discovery.test/";
     CALENDAR_API_ID := Some "10001";
     CALENDAR_API_KEY := None;
     net := sample_net "http://10.0.0.7:8080/" "10.0.0.7:8080";
     db_fault := faults;
     clock := sample_clock |}.

Definition no_fault (k : nat) : option fault := None.

Definition empty_world : World :=
  {| day_calendar := ∅; hour_calendar := ∅; db_instance := false;
     requests_made := 0; db_ops := 0; trace := [] |}.

(** A store that is open and holds the given tables. *)
Definition world_with (d h : gmap string row) : World :=
  {| day_calendar := d; hour_calendar := h; db_instance := true;
     requests_made := 0; db_ops := 0; trace := [] |}.


(** A row written at 07:00. *)
Definition row_of (text : option string) : row :=
  Row text "2025-01-01 07:00:00" "2025-01-01 07:00:00".

Definition sample_ip : string := "10.0.0.7:8080".

Definition sample_api : CalendarAPI.t := CalendarAPI.__init__ (sample_env no_fault).

(** A discovery service that names no host. *)
Definition hostless_env : Env :=
  {| CALENDAR_BASE_URL := Some "http://discovery.test/";
     CALENDAR_API_ID := None;
     CALENDAR_API_KEY := None;
     net := sample_net "http://" "";
     db_fault := no_fault;
     clock := sample_clock |}.

(** ** More of [pkg/sqlite/sqlite.py] *)

(** [SELECT 1] then [fetchone()]: one row, whatever the tables hold. *)
Definition select_one (c : SQLiteDB.conn) : option unit * SQLiteDB.conn :=
  (Some tt, c).

(** [SQLiteDB.test_connection] *)
Definition test_connection (env : Env) : M World bool :=
  try_except
    (SQLiteDB.get_connection env
       (result <- SQLiteDB.execute select_one ;;
        ret (match result with Some _ => true | None => false end)))
    (fun e => ret false).

(** ** [agents/calander.py]: [answer_question] *)

(** [sub in s] for two strings. *)
Fixpoint occurs (sub s : string) : bool :=
  String.prefix sub s ||
  match s with
  | "" => false
  | String _ r => occurs sub r
  end.

(** What [answer_question] finds around it, besides the environment of
    the retrieval: the Unicode table of the decimal digits that are not
    ASCII ([\d] and [int] accept them all), the two templates, the
    language model, and the text [str] gives for the exceptions and the
    values of the libraries.  [render_user_prompt] is
    [_jinja_env.get_template("user_prompt.j2")] followed by [render] with
    the six variables; [chat] is given the two contents of [messages].
    Of an exception of a template or of the model [answer_question] reads
    the text only. *)
Record Host : Type := {
  unicode_decimal : N -> option Z;
  system_prompt : res string;
  render_user_prompt : Z -> Z -> Z -> string -> string -> bool -> res string;
  create_llm_client : res unit;
  chat : string -> string -> res string;
  str_builtin : exn -> string;
  str_value : json -> string
}.

(** The code point at the head of a text held as UTF-8, and the text
    after it; nothing when the head is not the first byte of a code
    point. *)
Definition decode_utf8 (s : string) : option (N * string) :=
  let cont (c : ascii) : option N :=
    let n := N_of_ascii c in
    if ((128 <=? n) && (n <? 192))%N then Some (n - 128)%N else None in
  match s with
  | "" => None
  | String b0 r0 =>
      let n0 := N_of_ascii b0 in
      if (n0 <? 128)%N then Some (n0, r0)
      else if (n0 <? 192)%N then None
      else if (n0 <? 224)%N then
        match r0 with
        | String b1 r1 =>
            match cont b1 with
            | Some c1 => Some (((n0 - 192) * 64 + c1)%N, r1)
            | None => None
            end
        | _ => None
        end
      else if (n0 <? 240)%N then
        match r0 with
        | String b1 (String b2 r2) =>
            match cont b1, cont b2 with
            | Some c1, Some c2 => Some ((((n0 - 224) * 64 + c1) * 64 + c2)%N, r2)
            | _, _ => None
            end
        | _ => None
        end
      else if (n0 <? 248)%N then
        match r0 with
        | String b1 (String b2 (String b3 r3)) =>
            match cont b1, cont b2, cont b3 with
            | Some c1, Some c2, Some c3 =>
                Some (((((n0 - 240) * 64 + c1) * 64 + c2) * 64 + c3)%N, r3)
            | _, _, _ => None
            end
        | _ => None
        end
      else None
  end.

Section Question.
Variable host : Host.

(** The value of a decimal digit: the ASCII digits, and the digits of the
    other scripts as the table of the host gives them. *)
Definition digit_value (cp : N) : option Z :=
  if (cp <? 128)%N then
    if ((48 <=? cp) && (cp <=? 57))%N then Some (Z.of_N (cp - 48)) else None
  else unicode_decimal host cp.

(** [\d] at the head of a text: the value of the digit, the text after. *)
Definition digit_at (s : string) : option (Z * string) :=
  match decode_utf8 s with
  | Some (cp, r) =>
      match digit_value cp with
      | Some v => Some (v, r)
      | None => None
      end
  | None => None
  end.

(** A group is kept as the values of its digits, which is all [int]
    reads of it.  A matcher takes the rest of the pattern as [k]: it
    answers what [k] answers on the text left, and tries its shorter
    matches when [k] fails. *)

(** [\d{n}] *)
Fixpoint re_digits {R} (n : nat) (k : list Z -> string -> option R)
    (group : list Z) (s : string) : option R :=
  match n with
  | O => k group s
  | S n' =>
      match digit_at s with
      | Some (v, r) => re_digits n' k (group ++ [v]) r
      | None => None
      end
  end.

(** [\d{0,n}], greedy. *)
Fixpoint re_digits_upto {R} (n : nat) (k : list Z -> string -> option R)
    (group : list Z) (s : string) : option R :=
  match n with
  | O => k group s
  | S n' =>
      match digit_at s with
      | Some (v, r) =>
          match re_digits_upto n' k (group ++ [v]) r with
          | Some x => Some x
          | None => k group s
          end
      | None => k group s
      end
  end.

(** A literal. *)
Definition re_lit {R} (lit : string) (k : string -> option R) (s : string)
  : option R :=
  match Json.strip_prefix lit s with
  | Some r => k r
  | None => None
  end.

(** [(\d{4})sep1(\d{1,2})sep2(\d{1,2})tail] at the head of a text: the
    three groups. *)
Definition date_pattern (sep1 sep2 tail : string) (s : string)
  : option (list Z * list Z * list Z) :=
  re_digits 4
    (fun g1 =>
       re_lit sep1
         (re_digits 1
            (re_digits_upto 1
               (fun g2 =>
                  re_lit sep2
                    (re_digits 1
                       (re_digits_upto 1
                          (fun g3 => re_lit tail (fun _ => Some (g1, g2, g3))))
                       [])))
            []))
    [] s.

(** [re.search]: the match at the leftmost position that has one. *)
Fixpoint re_search {R} (pattern : string -> option R) (s : string) : option R :=
  match pattern s with
  | Some x => Some x
  | None =>
      match s with
      | "" => None
      | String _ r => re_search pattern r
      end
  end.

(** [int(date_match.group(i))] *)
Definition py_int (group : list Z) : Z :=
  fold_left (fun n v => 10 * n + v)%Z group 0%Z.

(** [str(e)] *)
Fixpoint str_exn (e : exn) : string :=
  match e with
  | Wrapped msg cause => msg +:+ str_exn cause
  | Refused msg data => msg +:+ str_value host data
  | RequestException msg => msg
  | _ => str_builtin host e
  end.

Definition no_date_message : string :=
  "无法从问题中提取日期信息，请确保问题中包含具体日期（如2025-12-01）。".

Definition answer_error : string := "处理问题时出错：".

Definition force_refresh_keywords : list string :=
  ["最新"; "刷新"; "重新获取"; "更新"; "重新拉取"; "强制刷新"; "重新查询"].

Definition hour_keywords : list string :=
  ["时辰"; "几点"; "什么时候"; "时间"; "小时"; "吉时"; "面试"].

(** [any(keyword in question for keyword in keywords)] *)
Definition any_in (keywords : list string) (question : string) : bool :=
  existsb (fun keyword => occurs keyword question) keywords.

Variable env : Env.

Definition answer_question (question : string) (force_refresh : bool)
  : M World string :=
  try_except
    (let date_match :=
       match re_search (date_pattern "-" "-" "") question with
       | Some groups => Some groups
       | None => re_search (date_pattern "年" "月" "日") question
       end in
     match date_match with
     | None => ret no_date_message
     | Some (g1, g2, g3) =>
         let year := py_int g1 in
         let month := py_int g2 in
         let day := py_int g3 in
         let force_refresh :=
           if negb force_refresh then any_in force_refresh_keywords question
           else force_refresh in
         calendar_info <- get_calander_info env year month day force_refresh ;;
         let need_hour_info := any_in hour_keywords question in
         system_prompt <- of_res (system_prompt host) ;;
         user_prompt <-
           of_res (render_user_prompt host year month day calendar_info
                     question need_hour_info) ;;
         of_res (create_llm_client host) ;;;
         answer <- of_res (chat host system_prompt user_prompt) ;;
         ret answer
     end)
    (fun e => ret (answer_error +:+ str_exn e)).

End Question.

(** ** Vocabulary of the further statements *)

(** A numeral: digits, after a sign or not. *)
Definition numeral (s : string) : Prop :=
  exists u, occurs "-" u = false /\ u <> "" /\ (s = u \/ s = String "-" u).

(** From [w] to [w']: rows of other dates than [date] are as they were,
    no row is lost and none changes its time of creation, at most [reqs]
    requests were sent and [conns] connections opened, and a store that
    was built stays built. *)
Definition within (date : string) (reqs conns : nat) (w w' : World) : Prop :=
  (forall f date', date' <> date -> table f w' !! date' = table f w !! date') /\
  (forall f date' r, table f w !! date' = Some r ->
     exists r', table f w' !! date' = Some r' /\ create_time r' = create_time r) /\
  requests_made w <= requests_made w' <= requests_made w + reqs /\
  db_ops w <= db_ops w' <= db_ops w + conns /\
  (db_instance w = true -> db_instance w' = true).

(** A computation on a state that holds a world stays [within] these
    bounds, from every state. *)
Definition uses {S A} (st : S -> World) (date : string) (reqs conns : nat)
    (m : M S A) : Prop :=
  forall s, within date reqs conns (st s) (st (snd (m s))).

(** The character of a digit. *)
Definition digit_char (v : Z) : ascii := ascii_of_N (48 + Z.to_N v).

(** A year of four digits and a month or day of two, written out. *)
Definition four_digits (y : Z) : string :=
  String (digit_char (y / 1000))
    (String (digit_char (y / 100 mod 10))
       (String (digit_char (y / 10 mod 10))
          (String (digit_char (y mod 10)) ""))).

Definition two_digits (m : Z) : string :=
  String (digit_char (m / 10)) (String (digit_char (m mod 10)) "").

(** The numbers from [lo], [len] of them. *)
Definition range (lo len : Z) : list Z :=
  map (fun i => (lo + Z.of_nat i)%Z) (seq 0 (Z.to_nat len)).

(** What the templates and the model make of a retrieved record: the
    statements of [answer_question] after the retrieval. *)
Definition consult (host : Host) (year month day : Z) (calendar_info question : string)
  : res string :=
  match system_prompt host with
  | Raise e => Raise e
  | Ok sp =>
      match render_user_prompt host year month day calendar_info question
              (any_in hour_keywords question) with
      | Raise e => Raise e
      | Ok up =>
          match create_llm_client host with
          | Raise e => Raise e
          | Ok _ => chat host sp up
          end
      end
  end.

(** The text [answer_question] returns for a result or an exception. *)
Definition as_text (host : Host) (r : res string) : string :=
  match r with
  | Ok s => s
  | Raise e => answer_error +:+ str_exn host e
  end.

(** ** More sample worlds *)


(** A host with empty templates and a silent model, that knows the
    fullwidth digits. *)
Definition bare_host : Host :=
  {| unicode_decimal := fun cp =>
       if ((65296 <=? cp) && (cp <=? 65305))%N then Some (Z.of_N (cp - 65296))
       else None;
     system_prompt := Ok "";
     render_user_prompt := fun _ _ _ _ _ _ => Ok "";
     create_llm_client := Ok tt;
     chat := fun _ _ => Ok "";
     str_builtin := fun _ => "error";
     str_value := Json.dumps |}.

(** A host whose model repeats the prompt it is given. *)
Definition echo_host : Host :=
  {| unicode_decimal := fun _ => None;
     system_prompt := Ok "system";
     render_user_prompt := fun _ _ _ calendar_info question _ =>
       Ok (question +:+ calendar_info);
     create_llm_client := Ok tt;
     chat := fun _ user_prompt => Ok user_prompt;
     str_builtin := fun _ => "error";
     str_value := Json.dumps |}.

(** * Facts about the encoder and the decoder *)

Module JsonFacts.
Import Json.
#[local] Arguments String.append !s1 s2 : simpl nomatch.

Lemma app_assoc' (a b c : string) : (a +:+ b) +:+ c = a +:+ b +:+ c.
Proof. induction a; simpl; congruence. Qed.

Lemma scan_digits_app u rest :
  delimited rest ->
  scan_digits (NilEmpty.string_of_uint u +:+ rest) = (u, rest).
Proof.
  intros Hd. induction u; simpl; rewrite ?IHu; try reflexivity.
  destruct rest as [|c r]; [reflexivity|].
  simpl in Hd. destruct Hd as [-> | [-> | ->]]; reflexivity.
Qed.

Lemma float_mark_delimited rest : delimited rest -> float_mark rest = false.
Proof.
  destruct rest as [|c r]; [reflexivity|].
  intros [-> | [-> | ->]]; reflexivity.
Qed.

(** The decimal form of a positive number has no leading zero. *)
Lemma to_uint_head p u : Pos.to_uint p <> Decimal.D0 u.
Proof.
  intros Hu.
  assert (Hnorm : Decimal.unorm (Pos.to_uint p) = Pos.to_uint p).
  { rewrite <- Unsigned.to_of, Unsigned.of_to. reflexivity. }
  assert (Hu' : u <> Decimal.Nil).
  { intros ->. exact (Unsigned.to_uint_nonzero p Hu). }
  rewrite Hu in Hnorm. simpl in Hnorm.
  pose proof (nb_digits_unorm u Hu') as Hlen.
  change (Decimal.unorm (Decimal.D0 u)) with (Decimal.unorm u) in Hnorm.
  rewrite Hnorm in Hlen. simpl in Hlen. lia.
Qed.

Lemma parse_uint_pos p rest :
  delimited rest ->
  parse_uint (NilZero.string_of_uint (Pos.to_uint p) +:+ rest)
  = Some (Pos.to_uint p, rest).
Proof.
  intros Hd.
  pose proof (Unsigned.to_uint_nonnil p) as Hnn.
  pose proof (to_uint_head p) as Hnz.
  pose proof (scan_digits_app (Pos.to_uint p) rest Hd) as Hscan.
  unfold NilZero.string_of_uint.
  destruct (Pos.to_uint p) as [|u|u|u|u|u|u|u|u|u|u] eqn:E;
    try congruence; try (exfalso; eapply Hnz; reflexivity);
    unfold parse_uint; simpl NilEmpty.string_of_uint in *; 
    simpl String.append in *; simpl digit; cbv iota beta;
    simpl Ascii.eqb; cbv iota;
    rewrite Hscan, (float_mark_delimited rest Hd); reflexivity.
Qed.

Lemma parse_int_encode z rest :
  delimited rest ->
  parse_int (encode_int z +:+ rest) = Some (z, rest).
Proof.
  intros Hd. unfold encode_int.
  destruct z as [|p|p].
  - simpl. rewrite (float_mark_delimited rest Hd). reflexivity.
  - change (Z.to_int (Z.pos p)) with (Decimal.Pos (Pos.to_uint p)).
    unfold NilZero.string_of_int.
    pose proof (parse_uint_pos p rest Hd) as Hp.
    unfold parse_int.
    destruct (NilZero.string_of_uint (Pos.to_uint p) +:+ rest) as [|c r] eqn:E.
    + discriminate Hp.
    + destruct (Ascii.eqb c "-") eqn:Ec.
      * apply Ascii.eqb_eq in Ec. subst c.
        unfold parse_uint in Hp. simpl in Hp. discriminate Hp.
      * rewrite Hp.
        change (Decimal.Pos (Pos.to_uint p)) with (Z.to_int (Z.pos p)).
        rewrite DecimalZ.of_to. reflexivity.
  - change (Z.to_int (Z.neg p)) with (Decimal.Neg (Pos.to_uint p)).
    unfold NilZero.string_of_int. simpl String.append.
    unfold parse_int. simpl Ascii.eqb. cbv iota.
    rewrite (parse_uint_pos p rest Hd).
    change (Z.of_int (Decimal.Neg (Pos.to_uint p))) with (Z.of_int (Z.to_int (Z.neg p))).
    rewrite DecimalZ.of_to. reflexivity.
Qed.

Lemma parse_string_escape_char c t :
  parse_string (escape_char c +:+ t) = on_fst (String c) (parse_string t).
Proof.
  destruct c as [[] [] [] [] [] [] [] []]; reflexivity.
Qed.

Lemma parse_string_escape s rest :
  parse_string (escape s +:+ String dquote rest) = Some (s, rest).
Proof.
  induction s as [|c s IH]; [reflexivity|].
  simpl escape. rewrite app_assoc', parse_string_escape_char, IH. reflexivity.
Qed.

Lemma dumps_arr x t :
  dumps (JArr (x :: t)) = "[" +:+ (dumps x +:+ arr_tail t) +:+ "]".
Proof.
  reflexivity.
Qed.

Lemma dumps_obj k v t :
  dumps (JObj ((k, v) :: t))
  = "{" +:+ (encode_str k +:+ ": " +:+ dumps v +:+ obj_tail t) +:+ "}".
Proof.
  reflexivity.
Qed.

Lemma length_app (a b : string) :
  String.length (a +:+ b) = String.length a + String.length b.
Proof. induction a; simpl; congruence. Qed.

Lemma encode_str_app s rest :
  encode_str s +:+ rest = String dquote (escape s +:+ String dquote rest).
Proof. unfold encode_str. simpl. rewrite app_assoc'. reflexivity. Qed.

Lemma wf_arr l : wf_json (JArr l) <-> Forall wf_json l.
Proof.
  induction l as [|x t IH]; simpl.
  - split; auto.
  - rewrite Forall_cons. simpl in IH. rewrite IH. reflexivity.
Qed.

Lemma wf_obj l :
  wf_json (JObj l) <-> NoDup (map fst l) /\ Forall (fun kv => wf_json (snd kv)) l.
Proof.
  simpl. apply and_iff_compat_l.
  induction l as [|x t IH]; simpl.
  - split; auto.
  - rewrite Forall_cons. rewrite IH. reflexivity.
Qed.

(** No white space at the head of an encoded value. *)
Lemma uint_head u rest :
  u <> Decimal.Nil ->
  skip_ws (NilEmpty.string_of_uint u +:+ rest) = NilEmpty.string_of_uint u +:+ rest.
Proof. destruct u; intros H; try congruence; reflexivity. Qed.

Lemma skip_ws_dumps j rest : skip_ws (dumps j +:+ rest) = dumps j +:+ rest.
Proof.
  destruct j as [|[]|z|s|l|l]; try reflexivity.
  - simpl dumps. unfold encode_int. destruct z as [|p|p]; try reflexivity.
    change (Z.to_int (Z.pos p)) with (Decimal.Pos (Pos.to_uint p)).
    unfold NilZero.string_of_int, NilZero.string_of_uint.
    pose proof (Unsigned.to_uint_nonnil p) as Hnn.
    destruct (Pos.to_uint p) eqn:E; try congruence; reflexivity.
Qed.

Lemma skip_ws_delimited s : delimited s -> skip_ws s = s.
Proof.
  destruct s as [|c r]; [reflexivity|].
  intros [-> | [-> | ->]]; reflexivity.
Qed.

Lemma dumps_nonempty j : 1 <= String.length (dumps j).
Proof.
  destruct j as [|[]|z|s|l|l]; simpl; try lia.
  unfold encode_int. destruct z as [|p|p]; simpl; try lia.
  unfold NilZero.string_of_uint.
  pose proof (Unsigned.to_uint_nonnil p) as Hnn.
  destruct (Pos.to_uint p); try congruence; simpl; lia.
Qed.

Lemma parse_value_int n s z r :
  parse_int s = Some (z, r) -> parse_value (S n) s = Some (JNum z, r).
Proof.
  intros H. destruct s as [|c s]; [discriminate H|].
  destruct c as [[] [] [] [] [] [] [] []];
    try (exfalso; simpl in H; discriminate H);
    match goal with
    | |- parse_value _ ?t = _ =>
        change (on_fst JNum (parse_int t) = Some (JNum z, r))
    end; rewrite H; reflexivity.
Qed.

Lemma dict_set_fresh k v l :
  k ∉ map fst l -> dict_set k v l = l ++ [(k, v)].
Proof.
  induction l as [|[k' v'] l IH]; simpl; [reflexivity|].
  intros Hn. apply not_elem_of_cons in Hn as [Hne Hn].
  destruct (String.eqb k k') eqn:E.
  - apply String.eqb_eq in E. congruence.
  - rewrite IH by assumption. reflexivity.
Qed.

Lemma dict_of_pairs_nodup l : NoDup (map fst l) -> dict_of_pairs l = l.
Proof.
  unfold dict_of_pairs.
  assert (G : forall acc, NoDup (map fst (acc ++ l)) ->
            fold_left (fun d kv => dict_set (fst kv) (snd kv) d) l acc = acc ++ l).
  { induction l as [|[k v] l IH]; intros acc Hnd; simpl.
    - rewrite app_nil_r. reflexivity.
    - rewrite dict_set_fresh.
      + rewrite IH; rewrite <- app_assoc; [reflexivity | exact Hnd].
      + rewrite map_app in Hnd. apply NoDup_app in Hnd as (_ & Hd & _).
        intros Hin. apply (Hd k Hin). simpl. left.
  }
  intros Hnd. apply (G []). exact Hnd.
Qed.

Lemma delimited_arr_tail t rest : delimited (arr_tail t +:+ String "]" rest).
Proof. destruct t; simpl; auto. Qed.

Lemma delimited_obj_tail t rest : delimited (obj_tail t +:+ String "}" rest).
Proof. destruct t as [|[k v] t]; simpl; auto. Qed.

Lemma parse_elems_dumps t :
  Forall reads_back t ->
  forall x n rest,
    reads_back x ->
    1 + String.length (dumps x) + String.length (arr_tail t) <= n ->
    parse_elems n (dumps x +:+ arr_tail t +:+ String "]" rest) = Some (x :: t, rest).
Proof.
  induction 1 as [|y t Hy Ht IH]; intros x n rest Hx Hn.
  - destruct n as [|n]; [lia|]. simpl in *.
    rewrite Hx by (simpl; auto || lia). reflexivity.
  - destruct n as [|n]; [lia|].
    simpl in Hn. rewrite length_app in Hn.
    cbn [parse_elems]. rewrite Hx; [| lia | simpl; auto].
    simpl. rewrite app_assoc', skip_ws_dumps.
    rewrite IH; [reflexivity | exact Hy | lia].
Qed.

Lemma obj_tail_cons k v t r :
  obj_tail ((k, v) :: t) +:+ r
  = String "," (String " " (member_text k v (obj_tail t +:+ r))).
Proof.
  unfold member_text. simpl. rewrite !app_assoc'. simpl.
  rewrite !app_assoc'. reflexivity.
Qed.

Lemma parse_members_step n k v tl :
  parse_members (S n) (member_text k v tl)
  = match parse_value n (dumps v +:+ tl) with
    | None => None
    | Some (v', r3) =>
        match skip_ws r3 with
        | "" => None
        | String c2 r4 =>
            if Ascii.eqb c2 "," then
              on_fst (cons (k, v')) (parse_members n (skip_ws r4))
            else if Ascii.eqb c2 "}" then Some ([(k, v')], r4)
            else None
        end
    end.
Proof.
  unfold member_text. cbn [parse_members].
  change (dquote =? dquote)%char with true. cbv iota.
  rewrite parse_string_escape. simpl. rewrite skip_ws_dumps. reflexivity.
Qed.

Lemma length_member_text k v tl :
  String.length (member_text k v tl)
  = 4 + String.length (escape k) + String.length (dumps v) + String.length tl.
Proof.
  unfold member_text. simpl. rewrite length_app. simpl. rewrite length_app. lia.
Qed.

Lemma length_obj_tail_cons k v t :
  String.length (obj_tail ((k, v) :: t))
  = 6 + String.length (escape k) + String.length (dumps v) + String.length (obj_tail t).
Proof.
  simpl. unfold encode_str. simpl.
  repeat (rewrite length_app; simpl). lia.
Qed.

Lemma parse_members_dumps t :
  Forall (fun kv => reads_back (snd kv)) t ->
  forall k v n rest,
    reads_back v ->
    1 + String.length (dumps v) + String.length (obj_tail t) <= n ->
    parse_members n (member_text k v (obj_tail t +:+ String "}" rest))
    = Some ((k, v) :: t, rest).
Proof.
  induction 1 as [|[k' v'] t Hy Ht IH]; intros k v n rest Hv Hn;
    (destruct n as [|n]; [lia|]); rewrite parse_members_step.
  - simpl in *. rewrite Hv by (simpl; auto || lia). reflexivity.
  - rewrite obj_tail_cons.
    rewrite length_obj_tail_cons in Hn.
    rewrite Hv; [| lia | simpl; auto].
    simpl skip_ws at 1. cbv iota. simpl Ascii.eqb. cbv iota.
    replace (skip_ws (String " " (member_text k' v' (obj_tail t +:+ String "}" rest))))
      with (member_text k' v' (obj_tail t +:+ String "}" rest)) by reflexivity.
    simpl in Hy. rewrite IH; [reflexivity | exact Hy | lia].
Qed.

Lemma dumps_obj_text k v t rest :
  dumps (JObj ((k, v) :: t)) +:+ rest
  = String "{" (member_text k v (obj_tail t +:+ String "}" rest)).
Proof.
  rewrite dumps_obj. unfold member_text, encode_str. simpl.
  rewrite !app_assoc'. simpl. rewrite !app_assoc'. reflexivity.
Qed.

Lemma dumps_arr_text x t rest :
  dumps (JArr (x :: t)) +:+ rest
  = String "[" (dumps x +:+ arr_tail t +:+ String "]" rest).
Proof.
  rewrite dumps_arr. simpl. rewrite !app_assoc'. reflexivity.
Qed.

Lemma skip_ws_member k v tl : skip_ws (member_text k v tl) = member_text k v tl.
Proof. reflexivity. Qed.

Lemma member_text_head k v tl :
  exists r, member_text k v tl = String dquote r.
Proof. eexists. reflexivity. Qed.

Lemma Forall_mp {A} (P Q : A -> Prop) (l : list A) :
  Forall (fun x => P x -> Q x) l -> Forall P l -> Forall Q l.
Proof.
  induction 1 as [|x l H Hl IH]; intros HP; [constructor|].
  apply Forall_cons in HP as [Hx HP]. constructor; auto.
Qed.

Lemma parse_elems_nil n : parse_elems n "" = None.
Proof. destruct n as [|[|n]]; reflexivity. Qed.

Lemma parse_elems_bracket n r : parse_elems n (String "]" r) = None.
Proof. destruct n as [|[|n]]; reflexivity. Qed.

Lemma dumps_reads_back j : wf_json j -> reads_back j.
Proof.
  induction j as [|b|z|s|l IH|l IH] using json_ind; intros Hwf n rest Hn Hd.
  - destruct n; [simpl in Hn; lia | reflexivity].
  - destruct n; [destruct b; simpl in Hn; lia | destruct b; reflexivity].
  - pose proof (dumps_nonempty (JNum z)).
    destruct n; [lia|]. apply parse_value_int, parse_int_encode, Hd.
  - destruct n; [simpl in Hn; lia|].
    simpl dumps. rewrite encode_str_app. cbn [parse_value].
    change (dquote =? dquote)%char with true. cbv iota.
    rewrite parse_string_escape. reflexivity.
  - apply wf_arr in Hwf.
    destruct l as [|x t].
    + destruct n; [simpl in Hn; lia | reflexivity].
    + rewrite dumps_arr_text. rewrite dumps_arr in Hn.
      simpl in Hn. rewrite !length_app in Hn. simpl in Hn.
      destruct n; [lia|].
      apply Forall_cons in IH as [IHx IHt]. apply Forall_cons in Hwf as [Hx Ht].
      cbn [parse_value]. simpl Ascii.eqb. cbv iota.
      rewrite skip_ws_dumps.
      assert (Hel : parse_elems n (dumps x +:+ arr_tail t +:+ String "]" rest)
                    = Some (x :: t, rest)).
      { apply parse_elems_dumps; [| auto | lia].
        exact (Forall_mp _ _ _ IHt Ht). }
      destruct (dumps x +:+ arr_tail t +:+ String "]" rest) as [|c1 r1] eqn:E.
      { rewrite parse_elems_nil in Hel. discriminate Hel. }
      destruct (Ascii.eqb c1 "]") eqn:Ec.
      { apply Ascii.eqb_eq in Ec. subst c1.
        rewrite parse_elems_bracket in Hel. discriminate Hel. }
      rewrite Hel. reflexivity.
  - apply wf_obj in Hwf as [Hnd Hwf].
    destruct l as [|[k v] t].
    + destruct n; [simpl in Hn; lia | reflexivity].
    + rewrite dumps_obj_text. rewrite dumps_obj in Hn.
      unfold encode_str in Hn. simpl in Hn. repeat (rewrite length_app in Hn; simpl in Hn).
      destruct n; [lia|].
      apply Forall_cons in IH as [IHx IHt]. apply Forall_cons in Hwf as [Hx Ht].
      cbn [parse_value]. simpl Ascii.eqb. cbv iota.
      rewrite skip_ws_member.
      destruct (member_text_head k v (obj_tail t +:+ String "}" rest)) as [r Hr].
      rewrite Hr. change (dquote =? "}")%char with false. cbv iota. rewrite <- Hr.
      rewrite parse_members_dumps; [| | auto | lia].
      * simpl. rewrite dict_of_pairs_nodup by exact Hnd. reflexivity.
      * exact (Forall_mp _ _ _ IHt Ht).
Qed.

Lemma loads_dumps j : wf_json j -> loads (dumps j) = Some j.
Proof.
  intros Hwf. unfold loads.
  pose proof (skip_ws_dumps j "") as Hs.
  assert (Hnil : forall s : string, s +:+ "" = s).
  { induction s; simpl; congruence. }
  rewrite Hnil in Hs. rewrite Hs.
  pose proof (dumps_reads_back j Hwf (2 * String.length (dumps j) + 2) "") as H.
  rewrite Hnil in H. rewrite H; [reflexivity | lia | exact I].
Qed.




Lemma on_fst_Some {A B C} (f : A -> C) (r : option (A * B)) c b :
  on_fst f r = Some (c, b) -> exists a, r = Some (a, b) /\ c = f a.
Proof. destruct r as [[a b']|]; simpl; intros H; inversion H; eauto. Qed.



(** ** The fuel of [loads] is enough *)

Lemma skip_ws_length s : String.length (skip_ws s) <= String.length s.
Proof.
  induction s as [|c s IH]; simpl; [lia|].
  destruct (is_ws c); simpl; lia.
Qed.

Lemma strip_prefix_length p s r :
  strip_prefix p s = Some r -> String.length r + String.length p = String.length s.
Proof.
  revert s. induction p as [|a p IH]; intros s H; simpl in *.
  - injection H as ->. lia.
  - destruct s as [|b s]; [discriminate|].
    destruct (Ascii.eqb a b); [|discriminate].
    apply IH in H. simpl. lia.
Qed.

Lemma scan_digits_length s u r :
  scan_digits s = (u, r) -> String.length r <= String.length s.
Proof.
  revert u r. induction s as [|c s IH]; intros u r H; simpl in *.
  - injection H as _ <-. simpl. lia.
  - destruct (digit c).
    + destruct (scan_digits s) as [u' r'] eqn:E. injection H as _ <-.
      specialize (IH _ _ eq_refl). lia.
    + injection H as _ <-. simpl. lia.
Qed.

Lemma parse_uint_length s u r :
  parse_uint s = Some (u, r) -> String.length r < String.length s.
Proof.
  unfold parse_uint. destruct s as [|c s]; [discriminate|].
  destruct (Ascii.eqb c "0").
  - destruct (float_mark s); [discriminate|]. intros H. injection H as _ <-.
    simpl. lia.
  - destruct (digit c) eqn:Ed; [|discriminate].
    destruct (scan_digits (String c s)) as [u' r'] eqn:E.
    destruct (float_mark r'); [discriminate|]. intros H. injection H as _ <-.
    simpl in E. rewrite Ed in E.
    destruct (scan_digits s) as [u2 r2] eqn:E2. injection E as _ <-.
    apply scan_digits_length in E2. simpl. lia.
Qed.

Lemma parse_int_length s z r :
  parse_int s = Some (z, r) -> String.length r < String.length s.
Proof.
  unfold parse_int. destruct s as [|c s]; [discriminate|].
  destruct (Ascii.eqb c "-").
  - destruct (parse_uint s) as [[u r']|] eqn:E; [|discriminate].
    intros H. injection H as _ <-. apply parse_uint_length in E. simpl. lia.
  - destruct (parse_uint (String c s)) as [[u r']|] eqn:E; [|discriminate].
    intros H. injection H as _ <-. apply parse_uint_length in E. exact E.
Qed.

Lemma parse_string_length_lt n :
  forall s, String.length s < n ->
  forall x r, parse_string s = Some (x, r) -> String.length r < String.length s.
Proof.
  induction n as [|n IH]; intros s Hn x r H; [lia|].
  assert (IH' : forall s' (k : nat), String.length s' < String.length s ->
                forall (f : string -> string) x r,
                  on_fst f (parse_string s') = Some (x, r) ->
                  String.length r < String.length s).
  { intros s' k Hlt f x' r' E. apply on_fst_Some in E as (a & E & _).
    apply IH in E; lia. }
  clear IH.
  destruct s as [|c s]; [discriminate|]. cbn [parse_string] in H.
  destruct (Ascii.eqb c dquote); [injection H as _ <-; simpl; lia|].
  destruct (Ascii.eqb c backslash).
  - destruct s as [|e r1]; [discriminate|].
    destruct (Ascii.eqb e "u").
    + destruct r1 as [|h1 [|h2 [|h3 [|h4 r2]]]]; try discriminate.
      destruct (hex4 h1 h2 h3 h4) as [cp|]; [|discriminate].
      destruct ((55296 <=? cp)%N && (cp <=? 56319)%N).
      * destruct r2 as [|b [|u [|g1 [|g2 [|g3 [|g4 r3]]]]]];
          try (eapply (IH' _ 0); [|exact H]; simpl; lia).
        destruct (Ascii.eqb b backslash && Ascii.eqb u "u");
          [|eapply (IH' _ 0); [|exact H]; simpl; lia].
        destruct (hex4 g1 g2 g3 g4) as [lo|]; [|discriminate].
        destruct ((56320 <=? lo)%N && (lo <=? 57343)%N);
          (eapply (IH' _ 0); [|exact H]; simpl; lia).
      * eapply (IH' _ 0); [|exact H]. simpl. lia.
    + destruct (unescape e); [|discriminate].
      eapply (IH' _ 0); [|exact H]. simpl. lia.
  - destruct (N_of_ascii c <? 32)%N; [discriminate|].
    eapply (IH' _ 0); [|exact H]. simpl. lia.
Qed.

Lemma parse_string_length s x r :
  parse_string s = Some (x, r) -> String.length r < String.length s.
Proof. apply (parse_string_length_lt (S (String.length s))). lia. Qed.

(** Each parser consumes at least one character. *)
Lemma parse_consumes n :
  (forall s v r, parse_value n s = Some (v, r) -> String.length r < String.length s) /\
  (forall s l r, parse_elems n s = Some (l, r) -> String.length r < String.length s) /\
  (forall s l r, parse_members n s = Some (l, r) -> String.length r < String.length s).
Proof.
  induction n as [|n (IHv & IHe & IHm)].
  - repeat split; intros; discriminate.
  - repeat split.
    + intros s v r H. cbn [parse_value] in H.
      destruct s as [|c s]; [discriminate H|].
      destruct (Ascii.eqb c dquote).
      { apply on_fst_Some in H as (a & Ha & _).
        apply parse_string_length in Ha. simpl. lia. }
      destruct (Ascii.eqb c "{").
      { pose proof (skip_ws_length s) as Hs.
        destruct (skip_ws s) as [|c1 r1]; [discriminate H|].
        destruct (Ascii.eqb c1 "}"); [injection H as _ <-; simpl in *; lia|].
        apply on_fst_Some in H as (a & Ha & _). apply IHm in Ha. simpl in *. lia. }
      destruct (Ascii.eqb c "[").
      { pose proof (skip_ws_length s) as Hs.
        destruct (skip_ws s) as [|c1 r1]; [discriminate H|].
        destruct (Ascii.eqb c1 "]"); [injection H as _ <-; simpl in *; lia|].
        apply on_fst_Some in H as (a & Ha & _). apply IHe in Ha. simpl in *. lia. }
      destruct (strip_prefix "null" (String c s)) eqn:E1;
        [injection H as _ <-; apply strip_prefix_length in E1; simpl in *; lia|].
      destruct (strip_prefix "true" (String c s)) eqn:E2;
        [injection H as _ <-; apply strip_prefix_length in E2; simpl in *; lia|].
      destruct (strip_prefix "false" (String c s)) eqn:E3;
        [injection H as _ <-; apply strip_prefix_length in E3; simpl in *; lia|].
      apply on_fst_Some in H as (a & Ha & _). apply parse_int_length in Ha. exact Ha.
    + intros s l r H. cbn [parse_elems] in H.
      destruct (parse_value n s) as [[v r0]|] eqn:Ev; [|discriminate H].
      apply IHv in Ev. pose proof (skip_ws_length r0) as Hs.
      destruct (skip_ws r0) as [|c r1]; [discriminate H|].
      destruct (Ascii.eqb c ",").
      { apply on_fst_Some in H as (a & Ha & _). apply IHe in Ha.
        pose proof (skip_ws_length r1). simpl in *. lia. }
      destruct (Ascii.eqb c "]"); [|discriminate H].
      injection H as _ <-. simpl in *. lia.
    + intros s l r H. cbn [parse_members] in H.
      destruct s as [|q s]; [discriminate H|].
      destruct (Ascii.eqb q dquote); [|discriminate H].
      destruct (parse_string s) as [[k r1]|] eqn:Ek; [|discriminate H].
      apply parse_string_length in Ek. pose proof (skip_ws_length r1) as Hs1.
      destruct (skip_ws r1) as [|c1 r2]; [discriminate H|].
      destruct (Ascii.eqb c1 ":"); [|discriminate H].
      pose proof (skip_ws_length r2) as Hs2.
      destruct (parse_value n (skip_ws r2)) as [[v r3]|] eqn:Ev; [|discriminate H].
      apply IHv in Ev. pose proof (skip_ws_length r3) as Hs3.
      destruct (skip_ws r3) as [|c2 r4]; [discriminate H|].
      destruct (Ascii.eqb c2 ",").
      { apply on_fst_Some in H as (a & Ha & _). apply IHm in Ha.
        pose proof (skip_ws_length r4). simpl in *. lia. }
      destruct (Ascii.eqb c2 "}"); [|discriminate H].
      injection H as _ <-. simpl in *. lia.
Qed.

(** More fuel than twice the length of the text changes nothing. *)
Lemma fuel_enough n :
  (forall s m, 2 * String.length s + 1 <= n -> n <= m ->
               parse_value m s = parse_value n s) /\
  (forall s m, 2 * String.length s + 2 <= n -> n <= m ->
               parse_elems m s = parse_elems n s) /\
  (forall s m, 2 * String.length s + 2 <= n -> n <= m ->
               parse_members m s = parse_members n s).
Proof.
  induction n as [|n (IHv & IHe & IHm)].
  - repeat split; intros; lia.
  - repeat split.
    + intros s m Hn Hm. destruct m as [|m]; [lia|]. cbn [parse_value].
      destruct s as [|c s]; [reflexivity|].
      destruct (Ascii.eqb c dquote); [reflexivity|].
      pose proof (skip_ws_length s) as Hs. simpl in Hn.
      destruct (Ascii.eqb c "{").
      { destruct (skip_ws s) as [|c1 r1]; [reflexivity|].
        destruct (Ascii.eqb c1 "}"); [reflexivity|].
        rewrite (IHm (String c1 r1) m); [reflexivity | simpl in *; lia | lia]. }
      destruct (Ascii.eqb c "[").
      { destruct (skip_ws s) as [|c1 r1]; [reflexivity|].
        destruct (Ascii.eqb c1 "]"); [reflexivity|].
        rewrite (IHe (String c1 r1) m); [reflexivity | simpl in *; lia | lia]. }
      reflexivity.
    + intros s m Hn Hm. destruct m as [|m]; [lia|]. cbn [parse_elems].
      rewrite (IHv s m) by lia.
      destruct (parse_value n s) as [[v r0]|] eqn:Ev; [|reflexivity].
      apply (proj1 (parse_consumes n)) in Ev.
      pose proof (skip_ws_length r0) as Hs.
      destruct (skip_ws r0) as [|c r1]; [reflexivity|].
      destruct (Ascii.eqb c ","); [|reflexivity].
      pose proof (skip_ws_length r1) as Hs1.
      rewrite (IHe (skip_ws r1) m); [reflexivity | simpl in *; lia | lia].
    + intros s m Hn Hm. destruct m as [|m]; [lia|]. cbn [parse_members].
      destruct s as [|q s]; [reflexivity|].
      destruct (Ascii.eqb q dquote); [|reflexivity].
      destruct (parse_string s) as [[k r1]|] eqn:Ek; [|reflexivity].
      apply parse_string_length in Ek. pose proof (skip_ws_length r1) as Hs1.
      destruct (skip_ws r1) as [|c1 r2]; [reflexivity|].
      destruct (Ascii.eqb c1 ":"); [|reflexivity].
      pose proof (skip_ws_length r2) as Hs2. simpl in Hn, Hs1.
      rewrite (IHv (skip_ws r2) m) by lia.
      destruct (parse_value n (skip_ws r2)) as [[v r3]|] eqn:Ev; [|reflexivity].
      apply (proj1 (parse_consumes n)) in Ev.
      pose proof (skip_ws_length r3) as Hs3.
      destruct (skip_ws r3) as [|c2 r4]; [reflexivity|].
      destruct (Ascii.eqb c2 ","); [|reflexivity].
      pose proof (skip_ws_length r4) as Hs4.
      rewrite (IHm (skip_ws r4) m); [reflexivity | simpl in *; lia | lia].
Qed.

(** [loads] is the decoder with any fuel above its own. *)
Lemma loads_fuel s m :
  2 * String.length (skip_ws s) + 2 <= m ->
  loads s = match parse_value m (skip_ws s) with
            | Some (v, r) => match skip_ws r with "" => Some v | _ => None end
            | None => None
            end.
Proof.
  intros Hm. unfold loads.
  rewrite (proj1 (fuel_enough (2 * String.length (skip_ws s) + 2)) (skip_ws s) m);
    [reflexivity | lia | exact Hm].
Qed.

End JsonFacts.

Import JsonFacts.

(** * Facts about the store *)

Section StoreFacts.
Variable env : Env.

Lemma get_calendar_eq f date w :
  SQLiteDB.get_calendar env f date w
  = (Ok (if fault_hits 1 (db_fault env (db_ops w)) then JNull
         else decode_row (table f w !! date)),
     after_db (day_calendar w) (hour_calendar w) (EvGet f date) w).
Proof.
  unfold SQLiteDB.get_calendar, bind, log, try_except, SQLiteDB.get_connection.
  cbn [db_ops day_calendar hour_calendar db_instance requests_made trace].
  destruct (db_fault env (db_ops w)) as [[| [|n] |]|] eqn:E; simpl; try reflexivity.
  all: unfold SQLiteDB.execute, SQLiteDB.select_by_date; simpl.
  all: replace (SQLiteDB.c_table f _ !! date) with (table f w !! date)
         by (destruct f; reflexivity).
  all: destruct (table f w !! date) as [[[s|] ct ut]|]; simpl; try reflexivity.
  all: destruct (String.eqb s ""); simpl; try reflexivity.
  all: destruct (Json.loads s); reflexivity.
Qed.

Lemma save_calendar_eq f date data w :
  let ok := negb (fault_hits 2 (db_fault env (db_ops w))) in
  let t := if ok
           then SQLiteDB.upsert date (Json.dumps data) (clock env (db_ops w)) (table f w)
           else table f w in
  SQLiteDB.save_calendar env f date data w
  = (Ok ok,
     after_db (fst (set_table f t w)) (snd (set_table f t w)) (EvSave f date ok) w).
Proof.
  unfold SQLiteDB.save_calendar, bind, log, try_except, SQLiteDB.get_connection, ret.
  cbn [db_ops day_calendar hour_calendar db_instance requests_made trace].
  destruct (db_fault env (db_ops w)) as [[| [|[|n]] |]|] eqn:E; simpl;
    destruct f; reflexivity.
Qed.

(** [get_db] either hands out the store, leaving tables, counters of
    requests and trace as they are, or fails while building it. *)
Lemma get_db_cases w :
  (exists w', SQLiteDB.get_db env w = (Ok tt, w') /\
              db_instance w' = true /\
              day_calendar w' = day_calendar w /\
              hour_calendar w' = hour_calendar w /\
              requests_made w' = requests_made w /\
              trace w' = trace w) \/
  (exists f w', SQLiteDB.get_db env w = (Raise (DatabaseError f), w') /\
                db_instance w = false /\
                trace w' = trace w).
Proof.
  unfold SQLiteDB.get_db. destruct (db_instance w) eqn:Ei.
  - left. exists w. repeat split; auto.
  - unfold SQLiteDB.__init__, bind, SQLiteDB._init_connection.
    cbn [db_ops day_calendar hour_calendar db_instance requests_made trace].
    destruct (db_fault env (db_ops w)) as [[| [|n] |]|] eqn:E0;
      try (right; eexists _, _; repeat split; reflexivity).
    all: unfold SQLiteDB._init_tables, SQLiteDB.get_connection, bind.
    all: cbn [db_ops day_calendar hour_calendar db_instance requests_made trace].
    all: destruct (db_fault env (S (db_ops w))) as [[| [|[|[|[|n']]]] |]|] eqn:E1;
      simpl;
      first [ right; eexists _, _; repeat split; reflexivity
            | left; eexists; repeat split; reflexivity ].
Qed.


End StoreFacts.

(** * Facts about the client *)

Section ClientFacts.
Variable env : Env.

Lemma ensure_ip_cached self w :
  CalendarAPI.no_ip (CalendarAPI.current_ip self) = false ->
  CalendarAPI.ensure_ip env (self, w) = (Ok tt, (self, w)).
Proof.
  intros H. unfold CalendarAPI.ensure_ip, bind, get_state. simpl. rewrite H.
  reflexivity.
Qed.

Lemma ensure_ip_resolves self w :
  CalendarAPI.no_ip (CalendarAPI.current_ip self) = true ->
  CalendarAPI.ensure_ip env (self, w)
  = let req := CalendarAPI.discovery_request self in
    match CalendarAPI.discovery_result (net env (requests_made w) req) with
    | Ok ip => (Ok tt, (resolved self ip, after_request Discovery req w))
    | Raise e =>
        (Raise (Wrapped CalendarAPI.resolution_error e),
         (self, after_request Discovery req w))
    end.
Proof.
  intros H. unfold CalendarAPI.ensure_ip, bind, get_state. simpl. rewrite H.
  unfold CalendarAPI.get_optimal_api_ip, try_wrap, try_except, bind, get_state,
    liftW, CalendarAPI.requests_get, of_res. simpl.
  destruct (CalendarAPI.discovery_result _); reflexivity.
Qed.

Lemma get_calendar_eq_api f path refusal error y m d self w :
  CalendarAPI.get_calendar env f path refusal error y m d (self, w)
  = match CalendarAPI.ensure_ip env (self, w) with
    | (Raise e, s) => (Raise e, s)
    | (Ok _, (self', w1)) =>
        let req := CalendarAPI.calendar_request path self' y m d in
        (match CalendarAPI.fetch_result refusal (net env (requests_made w1) req) with
         | Ok data => Ok data
         | Raise e => Raise (Wrapped error e)
         end,
         (self', after_request (Calendar f) req w1))
    end.
Proof.
  unfold CalendarAPI.get_calendar, bind.
  destruct (CalendarAPI.ensure_ip env (self, w)) as [[[]|e] [self' w1]];
    [|reflexivity].
  unfold get_state, try_wrap, try_except, bind, liftW,
    CalendarAPI.requests_get, of_res. simpl.
  destruct (CalendarAPI.fetch_result _ _); reflexivity.
Qed.

End ClientFacts.

(** * The store: claims C9, C3 and C2 *)

Section StoreClaims.
Variable env : Env.


Lemma upsert_keeps_create_time date data_str now (t : gmap string row) date0 r :
  t !! date0 = Some r ->
  exists r', SQLiteDB.upsert date data_str now t !! date0 = Some r'
             /\ create_time r' = create_time r.
Proof.
  intros Hr. unfold SQLiteDB.upsert.
  destruct (decide (date = date0)) as [->|Hne].
  - rewrite Hr, lookup_insert_eq. eauto.
  - destruct (t !! date); rewrite lookup_insert_ne by assumption; eauto.
Qed.

Lemma save_keeps_create_time f0 date0 r f date data w :
  table f0 w !! date0 = Some r ->
  exists r', table f0 (snd (SQLiteDB.save_calendar env f date data w)) !! date0 = Some r'
             /\ create_time r' = create_time r.
Proof.
  intros Hr. rewrite save_calendar_eq. cbn [snd].
  destruct (negb (fault_hits 2 (db_fault env (db_ops w)))).
  - destruct f, f0; simpl in *; eauto using upsert_keeps_create_time.
  - destruct f, f0; simpl in *; eauto.
Qed.

Lemma saves_keep_create_time ops : forall f0 date0 r w,
  table f0 w !! date0 = Some r ->
  exists r', table f0 (saves env ops w) !! date0 = Some r'
             /\ create_time r' = create_time r.
Proof.
  induction ops as [|[[f date] data] ops IH]; intros f0 date0 r w Hr; simpl.
  - eauto.
  - destruct (save_keeps_create_time f0 date0 r f date data w Hr) as (r1 & H1 & E1).
    destruct (IH f0 date0 r1 _ H1) as (r2 & H2 & E2).
    exists r2. split; [exact H2 | congruence].
Qed.

(** Claim C3.  For either family and every date: a save that goes through
    on a date with no row inserts a row with
    [create_time = update_time = now]; a save that goes through on an
    existing row replaces [data] and sets [update_time = now], keeping
    [create_time]; and whatever saves follow (any family, any date, any
    payload, going through or not), the row of that date keeps the
    [create_time] of its first insert. *)
Theorem create_time_set_once f date data w w' :
  SQLiteDB.save_calendar env f date data w = (Ok true, w') ->
  let now := clock env (db_ops w) in
  (table f w !! date = None ->
   table f w' !! date = Some (Row (Some (Json.dumps data)) now now)) /\
  (forall r, table f w !! date = Some r ->
   table f w' !! date = Some (Row (Some (Json.dumps data)) (create_time r) now)) /\
  (forall ops r1, table f w' !! date = Some r1 ->
   exists r', table f (saves env ops w') !! date = Some r' /\
              create_time r' = create_time r1).
Proof.
  intros H now. rewrite save_calendar_eq in H.
  injection H as Hok Hw.
  rewrite Hok in Hw. subst w'. fold now.
  repeat split.
  - intros Hn. destruct f; simpl in *; unfold SQLiteDB.upsert; rewrite Hn;
      apply lookup_insert_eq.
  - intros r Hr. destruct f; simpl in *; unfold SQLiteDB.upsert; rewrite Hr;
      apply lookup_insert_eq.
  - intros ops r1 Hr1. exact (saves_keep_create_time ops f date r1 _ Hr1).
Qed.

(** Claim C2, as the code has it.  [get_day_calendar] and
    [get_hour_calendar] ([get_calendar] at [Day] and [Hour]) never raise
    and change no table.  With no row for the date they return [None];
    with a row whose text decodes they return the decoded payload; with a
    row whose [data] is NULL or empty they return [None]; and with a row
    whose text does not decode, or when the connection fails, the
    exception is caught and they return [None] as well: an undecodable
    text is not told apart from absence. *)
Theorem get_reads_undecodable_text_as_absence f date w :
  exists w',
    SQLiteDB.get_calendar env f date w
    = (Ok (if fault_hits 1 (db_fault env (db_ops w)) then JNull
           else match table f w !! date with
                | None => JNull
                | Some r =>
                    match data r with
                    | None => JNull
                    | Some s =>
                        if String.eqb s "" then JNull
                        else match Json.loads s with
                             | Some j => j
                             | None => JNull
                             end
                    end
                end), w') /\
    day_calendar w' = day_calendar w /\
    hour_calendar w' = hour_calendar w.
Proof.
  rewrite get_calendar_eq.
  assert (Hv : decode_row (table f w !! date)
               = match table f w !! date with
                 | None => JNull
                 | Some r =>
                     match data r with
                     | None => JNull
                     | Some s =>
                         if String.eqb s "" then JNull
                         else match Json.loads s with
                              | Some j => j
                              | None => JNull
                              end
                     end
                 end).
  { destruct (table f w !! date) as [[[s|] ct ut]|]; reflexivity. }
  rewrite Hv. eexists. split; [reflexivity|]. split; reflexivity.
Qed.

End StoreClaims.

(** * The client: claims C7 and C8 *)

Section ClientClaims.
Variable env : Env.



Lemma ensure_ip_times_cached k self w :
  CalendarAPI.no_ip (CalendarAPI.current_ip self) = false ->
  ensure_ip_times env k (self, w) = (self, w).
Proof.
  intros H. induction k as [|k IH]; [reflexivity|].
  simpl. rewrite ensure_ip_cached by exact H. exact IH.
Qed.

(** Claim C8, as the code has it.  [ensure_ip] sends nothing and changes
    nothing when the instance holds a non-empty address; it resolves when
    the instance holds none (or the empty string).  After a resolution
    that stored a non-empty address, every later [ensure_ip] returns
    without a request and leaves the address as it is. *)
Theorem ensure_resolves_only_without_address self w :
  (CalendarAPI.no_ip (CalendarAPI.current_ip self) = false ->
   CalendarAPI.ensure_ip env (self, w) = (Ok tt, (self, w))) /\
  (CalendarAPI.no_ip (CalendarAPI.current_ip self) = true ->
   forall self' w',
     CalendarAPI.ensure_ip env (self, w) = (Ok tt, (self', w')) ->
     exists ip,
       CalendarAPI.discovery_result
         (net env (requests_made w) (CalendarAPI.discovery_request self)) = Ok ip /\
       self' = resolved self ip /\
       w' = after_request Discovery (CalendarAPI.discovery_request self) w /\
       (ip <> "" ->
        forall k,
          ensure_ip_times env k (self', w') = (self', w') /\
          CalendarAPI.ensure_ip env (self', w') = (Ok tt, (self', w')))).
Proof.
  split; [apply ensure_ip_cached|].
  intros Hno self' w' He. rewrite ensure_ip_resolves in He by exact Hno.
  cbv zeta in He.
  destruct (CalendarAPI.discovery_result _) as [ip|e] eqn:Ed; [|discriminate He].
  injection He as <- <-. exists ip. repeat split.
  - apply ensure_ip_times_cached. simpl.
    apply String.eqb_neq. assumption.
  - apply ensure_ip_cached. simpl. apply String.eqb_neq. assumption.
Qed.

End ClientClaims.

(** * Retrieval: claim C1 *)

Section Soundness.
Variable env : Env.












End Soundness.

(** * Forced refresh: claim C4 *)

Section ForcedRefresh.
Variable env : Env.


Lemma decode_row_dumps j c u :
  wf_json j -> decode_row (Some (Row (Some (Json.dumps j)) c u)) = j.
Proof.
  intros Hwf. unfold decode_row. rewrite (loads_dumps j Hwf).
  pose proof (dumps_nonempty j) as Hlen.
  destruct (Json.dumps j); [simpl in Hlen; lia | reflexivity].
Qed.

Lemma upsert_lookup date data_str now (t : gmap string row) :
  exists c, SQLiteDB.upsert date data_str now t !! date
            = Some (Row (Some data_str) c now).
Proof.
  unfold SQLiteDB.upsert. destruct (t !! date); rewrite lookup_insert_eq; eauto.
Qed.

Lemma decode_upsert date j now (t : gmap string row) :
  wf_json j ->
  decode_row (SQLiteDB.upsert date (Json.dumps j) now t !! date) = j.
Proof.
  intros Hwf. destruct (upsert_lookup date (Json.dumps j) now t) as [c ->].
  apply decode_row_dumps, Hwf.
Qed.







End ForcedRefresh.

(** * Calls that do not force: claims C6, C5 and C10 *)

Section Refill.
Variable env : Env.
Hypothesis Hdb : forall k, db_fault env k = None.

Lemma api_get_eq f y m d self w :
  api_get env f y m d (self, w)
  = match CalendarAPI.ensure_ip env (self, w) with
    | (Raise e, s) => (Raise e, s)
    | (Ok _, (self', w1)) =>
        let req := CalendarAPI.calendar_request (path_of f) self' y m d in
        (match CalendarAPI.fetch_result (refusal_of f) (net env (requests_made w1) req) with
         | Ok data => Ok data
         | Raise e =>
             Raise (Wrapped (match f with
                             | Day => CalendarAPI.day_error
                             | Hour => CalendarAPI.hour_error
                             end) e)
         end,
         (self', after_request (Calendar f) req w1))
    end.
Proof.
  destruct f; unfold api_get, CalendarAPI.get_day_calendar,
    CalendarAPI.get_hour_calendar; apply get_calendar_eq_api.
Qed.






End Refill.

Section NotForced.
Variable env : Env.
Hypothesis Hdb : forall k, db_fault env k = None.


End NotForced.

Section NotForcedClaims.
Variable env : Env.










End NotForcedClaims.

Section EmptyPayload.
Variable env : Env.



End EmptyPayload.


(** * The claims on sample worlds *)

(** C3 on the sample world: a first save, then two more. *)
Lemma create_time_set_once_witness :
  let env := sample_env no_fault in
  let w := world_with ∅ ∅ in
  let w' := snd (SQLiteDB.save_calendar env Day sample_date sample_day w) in
  SQLiteDB.save_calendar env Day sample_date sample_day w = (Ok true, w') /\
  table Day w' !! sample_date
    = Some (Row (Some (Json.dumps sample_day)) (sample_clock 0) (sample_clock 0)) /\
  exists r',
    table Day (saves env [(Day, sample_date, sample_hour); (Hour, sample_date, sample_hour)] w')
      !! sample_date = Some r' /\
    create_time r' = sample_clock 0.
Proof.
  intros env w w'.
  assert (H : SQLiteDB.save_calendar env Day sample_date sample_day w = (Ok true, w'))
    by (vm_compute; reflexivity).
  destruct (create_time_set_once env Day sample_date sample_day w w' H)
    as (H1 & H2 & H3).
  split; [exact H|]. split.
  - apply H1. vm_compute. reflexivity.
  - apply (H3 _ (Row (Some (Json.dumps sample_day)) (sample_clock 0) (sample_clock 0))).
    apply H1. vm_compute. reflexivity.
Defined.





(** C8 on a fresh instance. *)
Lemma ensure_witness :
  let env := sample_env no_fault in
  let w := world_with ∅ ∅ in
  let s1 := snd (CalendarAPI.ensure_ip env (sample_api, w)) in
  CalendarAPI.no_ip (CalendarAPI.current_ip sample_api) = true /\
  CalendarAPI.ensure_ip env (sample_api, w) = (Ok tt, s1) /\
  CalendarAPI.current_ip (fst s1) = Some sample_ip /\
  ensure_ip_times env 3 s1 = s1.
Proof.
  intros env w s1.
  assert (Hno : CalendarAPI.no_ip (CalendarAPI.current_ip sample_api) = true)
    by reflexivity.
  assert (He : CalendarAPI.ensure_ip env (sample_api, w) = (Ok tt, (fst s1, snd s1)))
    by (vm_compute; reflexivity).
  destruct (ensure_resolves_only_without_address env sample_api w) as [_ H].
  destruct (H Hno _ _ He) as (ip & Hd & Hs & Hw & Hk).
  assert (Hip : ip = sample_ip).
  { assert (Hd' : CalendarAPI.discovery_result
                    (net env (requests_made w) (CalendarAPI.discovery_request sample_api))
                  = Ok sample_ip) by (vm_compute; reflexivity).
    congruence. }
  subst ip.
  split; [exact Hno|]. split; [vm_compute; reflexivity|].
  split; [rewrite Hs; reflexivity|].
  destruct (Hk ltac:(discriminate) 3) as [Hk3 _].
  replace s1 with (fst s1, snd s1) by (destruct s1; reflexivity). exact Hk3.
Defined.


(** * Where the code departs from the claims as written *)


(** Against C2 as written: a row whose text does not decode reads as
    [None], exactly as a date with no row. *)
Lemma undecodable_text_reads_as_absence :
  let env := sample_env no_fault in
  let corrupt := world_with {[sample_date := row_of (Some "{")]} {[sample_date := row_of (Some "{")]} in
  let absent := world_with ∅ ∅ in
  Json.loads "{" = None /\
  fst (SQLiteDB.get_day_calendar env sample_date corrupt) = Ok JNull /\
  fst (SQLiteDB.get_day_calendar env sample_date absent) = Ok JNull /\
  fst (SQLiteDB.get_hour_calendar env sample_date corrupt) = Ok JNull /\
  fst (SQLiteDB.get_hour_calendar env sample_date absent) = Ok JNull.
Proof.
  vm_compute. repeat split.
Qed.

(** Against C8 as written: discovery answers with code 200 and an [api]
    that names no host, the resolution goes through and stores the empty
    string, and the next [ensure_ip] queries discovery again. *)
Lemma empty_address_is_resolved_again :
  let api := CalendarAPI.__init__ hostless_env in
  let first := CalendarAPI.ensure_ip hostless_env (api, world_with ∅ ∅) in
  let second := CalendarAPI.ensure_ip hostless_env (snd first) in
  fst first = Ok tt /\
  CalendarAPI.current_ip (fst (snd first)) = Some "" /\
  requests_made (snd (snd first)) = 1 /\
  fst second = Ok tt /\
  requests_made (snd (snd second)) = 2 /\
  trace (snd (snd second))
    = [EvRequest Discovery 0 (CalendarAPI.discovery_request api);
       EvRequest Discovery 1 (CalendarAPI.discovery_request api)].
Proof.
  vm_compute. repeat split.
Qed.


(** * Beyond the claims: more of the three files *)

(** * More about the store *)

Section StoreExtras.
Variable env : Env.


(** Property X2.  What was saved is read back: after a save that returned
    [True], a read of the same family and date that meets no fault returns the
    saved value. *)
Theorem saved_value_is_read_back f date data w w' :
  wf_json data ->
  SQLiteDB.save_calendar env f date data w = (Ok true, w') ->
  fault_hits 1 (db_fault env (db_ops w')) = false ->
  fst (SQLiteDB.get_calendar env f date w') = Ok data.
Proof.
  intros Hwf Hs Hf. rewrite save_calendar_eq in Hs. injection Hs as Hok Hw.
  rewrite Hok in Hw. subst w'.
  rewrite get_calendar_eq, Hf. cbn [fst]. f_equal.
  destruct f; simpl; apply decode_upsert, Hwf.
Qed.

(** Property X4.  [get_db] builds the store once: with the singleton set it
    does nothing; otherwise it either sets it or raises a database error and
    leaves it unset, so that the next call tries again. It never changes a
    row, and after it has returned a second call does nothing. *)
Theorem get_db_builds_once w r w' :
  SQLiteDB.get_db env w = (r, w') ->
  day_calendar w' = day_calendar w /\
  hour_calendar w' = hour_calendar w /\
  trace w' = trace w /\
  (db_instance w = true -> r = Ok tt /\ w' = w) /\
  match r with
  | Ok _ => db_instance w' = true /\ SQLiteDB.get_db env w' = (Ok tt, w')
  | Raise e => db_instance w' = false /\ exists f, e = DatabaseError f
  end.
Proof.
  intros H.
  assert (Hset : db_instance w = true -> r = Ok tt /\ w' = w).
  { intros Hw. unfold SQLiteDB.get_db in H. rewrite Hw in H.
    injection H as <- <-. auto. }
  destruct (get_db_cases env w) as
    [(w1 & H1 & Hi & Hd & Hh & _ & Ht) | (f & w1 & H1 & Hi & Ht)];
    rewrite H1 in H; injection H as <- <-.
  - split; [|split; [|split; [|split; [|split]]]]; auto.
    unfold SQLiteDB.get_db. rewrite Hi. reflexivity.
  - unfold SQLiteDB.get_db in H1. rewrite Hi in H1.
    destruct (SQLiteDB.__init__ env w) as [[[]|e] w2] eqn:E; [discriminate H1|].
    injection H1 as -> ->.
    assert (Hw : day_calendar w1 = day_calendar w /\
                 hour_calendar w1 = hour_calendar w /\ db_instance w1 = false).
    { clear Ht Hset. unfold SQLiteDB.__init__, bind, SQLiteDB._init_connection in E.
      cbn [db_ops] in E.
      destruct (db_fault env (db_ops w)) as [[| [|n] |]|] eqn:E0;
        try (injection E as _ <-; simpl; auto).
      all: unfold SQLiteDB._init_tables, SQLiteDB.get_connection, bind in E.
      all: cbn [db_ops day_calendar hour_calendar db_instance] in E.
      all: destruct (db_fault env (S (db_ops w))) as [[| [|[|[|[|n']]]] |]|];
        simpl in E; try discriminate E; injection E as _ <-; simpl; auto. }
    destruct Hw as (Hd & Hh & Hi').
    split; [|split; [|split; [|split; [|split]]]]; eauto.
Qed.

(** Property X5.  [test_connection] never raises and changes no row; it
    returns [True] exactly when the connection opens, the statement runs and
    the commit goes through. *)
Theorem test_connection_reports_faults w :
  exists w',
    test_connection env w
      = (Ok (negb (fault_hits 1 (db_fault env (db_ops w)))), w') /\
    day_calendar w' = day_calendar w /\
    hour_calendar w' = hour_calendar w /\
    db_ops w' = S (db_ops w).
Proof.
  unfold test_connection, try_except, SQLiteDB.get_connection, bind, ret.
  cbn [db_ops].
  destruct (db_fault env (db_ops w)) as [[| [|n] |]|] eqn:E; simpl;
    eexists; repeat split; reflexivity.
Qed.

End StoreExtras.

(** * What a retrieval may do to the world *)

Section Bounds.
Variable env : Env.

Lemma within_refl date w : within date 0 0 w w.
Proof. unfold within. repeat split; eauto; lia. Qed.

Lemma within_trans date a b a' b' w1 w2 w3 :
  within date a b w1 w2 -> within date a' b' w2 w3 ->
  within date (a + a') (b + b') w1 w3.
Proof.
  intros (F1 & K1 & R1 & D1 & I1) (F2 & K2 & R2 & D2 & I2).
  split; [|split; [|split; [|split]]].
  - intros f date' Hd. rewrite F2, F1 by exact Hd. reflexivity.
  - intros f date' r Hr. destruct (K1 f date' r Hr) as (r1 & Hr1 & Hc1).
    destruct (K2 f date' r1 Hr1) as (r2 & Hr2 & Hc2).
    exists r2. split; [exact Hr2 | congruence].
  - lia.
  - lia.
  - auto.
Qed.

Lemma within_le date a b a' b' w w' :
  within date a b w w' -> a <= a' -> b <= b' -> within date a' b' w w'.
Proof.
  intros (F1 & K1 & R1 & D1 & I1) Ha Hb. repeat split; auto; lia.
Qed.

(** Same tables: only the counters and the singleton count. *)
Lemma within_same_rows date a b w w' :
  day_calendar w' = day_calendar w -> hour_calendar w' = hour_calendar w ->
  requests_made w <= requests_made w' <= requests_made w + a ->
  db_ops w <= db_ops w' <= db_ops w + b ->
  (db_instance w = true -> db_instance w' = true) ->
  within date a b w w'.
Proof.
  intros Hd Hh Hr Ho Hi.
  assert (Ht : forall f, table f w' = table f w) by (intros []; assumption).
  split; [|split; [|split; [|split]]]; auto.
  - intros f date' _. rewrite Ht. reflexivity.
  - intros f date' r Hr'. rewrite Ht. eauto.
Qed.

Lemma uses_le {S A} (st : S -> World) date a b a' b' (m : M S A) :
  uses st date a b m -> a <= a' -> b <= b' -> uses st date a' b' m.
Proof. intros H Ha Hb s. eapply within_le; eauto. Qed.

Lemma uses_ret {S A} (st : S -> World) date (a : A) : uses st date 0 0 (ret a).
Proof. intros s. apply within_refl. Qed.

Lemma uses_bind {S A B} (st : S -> World) date a b a' b'
    (m : M S A) (k : A -> M S B) :
  uses st date a b m -> (forall x, uses st date a' b' (k x)) ->
  uses st date (a + a') (b + b') (bind m k).
Proof.
  intros Hm Hk s. unfold bind. specialize (Hm s).
  destruct (m s) as [[x|e] s1]; simpl in *.
  - eapply within_trans; [exact Hm | apply Hk].
  - eapply within_le; [exact Hm | lia | lia].
Qed.

Lemma uses_try_wrap {S A} (st : S -> World) date a b msg (m : M S A) :
  uses st date a b m -> uses st date a b (try_wrap msg m).
Proof.
  intros Hm s. unfold try_wrap, try_except, raise. specialize (Hm s).
  destruct (m s) as [[x|e] s1]; exact Hm.
Qed.

Lemma uses_liftW {O A} date a b (m : M World A) :
  uses (fun w => w) date a b m -> uses (@snd O World) date a b (liftW m).
Proof.
  intros Hm [o w]. unfold liftW. simpl. specialize (Hm w).
  destruct (m w) as [r w']. exact Hm.
Qed.

Lemma uses_with_api {A} date a b (m : M (CalendarAPI.t * World) A) :
  uses snd date a b m -> uses (fun w => w) date a b (with_api env m).
Proof.
  intros Hm w. unfold with_api. specialize (Hm (CalendarAPI.__init__ env, w)).
  destruct (m _) as [r s]. exact Hm.
Qed.

Lemma uses_get_db date : uses (fun w => w) date 0 2 (SQLiteDB.get_db env).
Proof.
  intros w. unfold SQLiteDB.get_db.
  destruct (db_instance w) eqn:Ei; [apply within_le with 0 0; [apply within_refl|lia|lia]|].
  unfold SQLiteDB.__init__, bind, SQLiteDB._init_connection.
  cbn [db_ops day_calendar hour_calendar db_instance requests_made trace].
  destruct (db_fault env (db_ops w)) as [[| [|n] |]|] eqn:E0;
    try (apply within_same_rows; simpl; auto; try lia; congruence).
  all: unfold SQLiteDB._init_tables, SQLiteDB.get_connection, bind.
  all: cbn [db_ops day_calendar hour_calendar db_instance requests_made trace].
  all: destruct (db_fault env (S (db_ops w))) as [[| [|[|[|[|n']]]] |]|] eqn:E1;
    simpl; apply within_same_rows; simpl; auto; try lia; congruence.
Qed.

Lemma uses_get date f date0 :
  uses (fun w => w) date 0 1 (SQLiteDB.get_calendar env f date0).
Proof.
  intros w. rewrite get_calendar_eq. apply within_same_rows; simpl; auto; lia.
Qed.

Lemma upsert_other_date date data_str now (t : gmap string row) date' :
  date' <> date -> SQLiteDB.upsert date data_str now t !! date' = t !! date'.
Proof.
  intros Hd. unfold SQLiteDB.upsert.
  destruct (t !! date); rewrite lookup_insert_ne by congruence; reflexivity.
Qed.

Lemma uses_save f date data :
  uses (fun w => w) date 0 1 (SQLiteDB.save_calendar env f date data).
Proof.
  intros w. rewrite save_calendar_eq. cbv zeta. cbn [snd].
  split; [|split; [|simpl; repeat split; auto; lia]].
  - intros f' date' Hd.
    destruct (negb (fault_hits 2 (db_fault env (db_ops w)))); destruct f, f'; simpl;
      try reflexivity; apply upsert_other_date, Hd.
  - intros f' date' r Hr.
    destruct (negb (fault_hits 2 (db_fault env (db_ops w)))); destruct f, f'; simpl;
      eauto; apply upsert_keeps_create_time, Hr.
Qed.

Lemma uses_api_get date f y m d : uses snd date 2 0 (api_get env f y m d).
Proof.
  intros [self w]. rewrite api_get_eq.
  destruct (CalendarAPI.no_ip (CalendarAPI.current_ip self)) eqn:Hno.
  - rewrite ensure_ip_resolves by exact Hno. cbv zeta.
    destruct (CalendarAPI.discovery_result _) as [ip|e]; simpl;
      apply within_same_rows; simpl; auto; lia.
  - rewrite ensure_ip_cached by exact Hno. simpl.
    apply within_same_rows; simpl; auto; lia.
Qed.

Lemma uses_fetch_and_save f y m d :
  uses snd (date_str y m d) 2 1
    (info <- api_get env f y m d ;;
     liftW (SQLiteDB.save_calendar env f (date_str y m d) info) ;;;
     ret info).
Proof.
  apply (uses_bind snd _ 2 0 0 1); [apply uses_api_get|]. intros info.
  apply (uses_bind snd _ 0 1 0 0); [apply uses_liftW, uses_save|]. intros _.
  apply uses_ret.
Qed.

Lemma uses_get_calander_info y m d force :
  uses (fun w => w) (date_str y m d) 4 6 (get_calander_info env y m d force).
Proof.
  unfold get_calander_info. apply uses_try_wrap.
  apply (uses_bind _ _ 0 2 4 4); [apply uses_get_db|]. intros _.
  destruct force.
  - apply uses_with_api.
    apply (uses_bind snd _ 2 0 2 4); [apply (uses_api_get _ Day)|]. intros day_info.
    apply (uses_bind snd _ 0 1 2 3); [apply uses_liftW, (uses_save Day)|]. intros _.
    apply (uses_bind snd _ 2 0 0 3); [apply (uses_api_get _ Hour)|]. intros hour_info.
    apply (uses_bind snd _ 0 1 0 2); [apply uses_liftW, (uses_save Hour)|]. intros _.
    eapply uses_le; [apply uses_ret | lia | lia].
  - apply (uses_bind _ _ 0 1 4 3); [apply (uses_get _ Day)|]. intros day_info.
    apply (uses_bind _ _ 0 1 4 2); [apply (uses_get _ Hour)|]. intros hour_info.
    destruct (truthy day_info && truthy hour_info).
    + eapply uses_le; [apply uses_ret | lia | lia].
    + apply uses_with_api.
      apply (uses_bind snd _ 2 1 2 1).
      { destruct (negb (truthy day_info)).
        - apply (uses_fetch_and_save Day).
        - eapply uses_le; [apply uses_ret | lia | lia]. }
      intros day_info'.
      apply (uses_bind snd _ 2 1 0 0).
      { destruct (negb (truthy hour_info)).
        - apply (uses_fetch_and_save Hour).
        - eapply uses_le; [apply uses_ret | lia | lia]. }
      intros hour_info'. apply uses_ret.
Qed.

End Bounds.

Section SaveFrame.
Variable env : Env.

(** Property X3.  A save touches one row: every other date of its family and
    the whole table of the other family are as before, whether the save went
    through or not; and a row that was there is still there afterwards, with
    the time of creation it had. *)
Theorem save_touches_one_row f date data w f' date' :
  let w' := snd (SQLiteDB.save_calendar env f date data w) in
  (f' <> f \/ date' <> date -> table f' w' !! date' = table f' w !! date') /\
  (forall r, table f' w !! date' = Some r ->
     exists r', table f' w' !! date' = Some r' /\ create_time r' = create_time r).
Proof.
  intros w'. subst w'. rewrite save_calendar_eq. cbv zeta. cbn [snd].
  destruct (negb (fault_hits 2 (db_fault env (db_ops w)))).
  - split.
    + intros [Hf | Hd].
      * destruct f, f'; try congruence; reflexivity.
      * destruct f, f'; simpl; try reflexivity; apply upsert_other_date, Hd.
    + intros r Hr.
      destruct f, f'; simpl in *; eauto; apply upsert_keeps_create_time, Hr.
  - split; intros; destruct f, f'; simpl; eauto.
Qed.

End SaveFrame.

Section RetrievalExtras.
Variable env : Env.

(** Property X11.  A retrieval, whatever the network and the database do and
    whether it returns or raises, writes only rows of its own date: the rows
    of every other date are as before, in both tables; and no row is ever
    deleted or given another time of creation. *)
Theorem retrieval_touches_only_its_date y m d force w :
  let w' := snd (get_calander_info env y m d force w) in
  (forall f date', date' <> date_str y m d ->
     table f w' !! date' = table f w !! date') /\
  (forall f date' r, table f w !! date' = Some r ->
     exists r', table f w' !! date' = Some r' /\ create_time r' = create_time r) /\
  (db_instance w = true -> db_instance w' = true).
Proof.
  destruct (uses_get_calander_info env y m d force w) as (F & K & _ & _ & I).
  cbv zeta. auto.
Qed.

(** Property X12.  A retrieval sends at most four requests and opens at most
    six connections to the database. *)
Theorem retrieval_cost_is_bounded y m d force w :
  let w' := snd (get_calander_info env y m d force w) in
  requests_made w <= requests_made w' <= requests_made w + 4 /\
  db_ops w <= db_ops w' <= db_ops w + 6.
Proof.
  destruct (uses_get_calander_info env y m d force w) as (_ & _ & R & D & _).
  cbv zeta. auto.
Qed.

End RetrievalExtras.

(** * More about the client *)

Module TextFacts.
#[local] Arguments String.append !s1 s2 : simpl nomatch.

Lemma replace_from_skip old new p s :
  replace_from old new (String.length p) (p +:+ s) = replace_from old new 0 s.
Proof.
  induction p as [|c p IH]; simpl.
  - destruct s; reflexivity.
  - exact IH.
Qed.

Lemma prefix_app (p s : string) : String.prefix p (p +:+ s) = true.
Proof.
  induction p as [|c p IH]; simpl.
  - destruct s; reflexivity.
  - destruct (ascii_dec c c); [exact IH | congruence].
Qed.

(** A match at the head is replaced and the rest is searched on. *)
Lemma replace_head c old new s :
  replace (String c old) new (String c old +:+ s)
  = new +:+ replace (String c old) new s.
Proof.
  unfold replace. change (String c old +:+ s) with (String c (old +:+ s)).
  cbn [replace_from].
  change (String c (old +:+ s)) with (String c old +:+ s).
  rewrite prefix_app. f_equal.
  cbn [String.length]. rewrite Nat.sub_0_r || (simpl; rewrite Nat.sub_0_r).
  apply replace_from_skip.
Qed.

(** Nothing to replace: the text is returned as it is. *)
Lemma replace_absent old new s :
  occurs old s = false -> replace old new s = s.
Proof.
  unfold replace. induction s as [|c s IH]; [reflexivity|].
  cbn [occurs replace_from]. intros H.
  apply orb_false_iff in H as [Hp Ho]. rewrite Hp, IH by exact Ho. reflexivity.
Qed.

Lemma rstrip_no_trailing c s p : rstrip c s <> p +:+ String c "".
Proof.
  revert p. induction s as [|a s IH]; intros p; simpl.
  - destruct p; discriminate.
  - destruct (rstrip c s) as [|b r] eqn:E.
    + destruct (Ascii.eqb a c) eqn:Ea.
      * destruct p; discriminate.
      * destruct p as [|x [|y p]]; simpl; try discriminate.
        intros H. injection H as ->. rewrite Ascii.eqb_refl in Ea. discriminate.
    + destruct p as [|x p]; simpl.
      * discriminate.
      * intros H. injection H as -> H. exact (IH p H).
Qed.

End TextFacts.
Import TextFacts.

(** Property X6.  The address of an [api] field with a scheme in front: the
    scheme and the slashes at the end are dropped, the rest is kept, for a
    rest that names no scheme itself. *)
Theorem address_drops_scheme_and_slashes host :
  occurs "http://" host = false ->
  occurs "https://" host = false ->
  CalendarAPI.address_of (JStr ("http://" +:+ host)) = Ok (rstrip "/" host) /\
  CalendarAPI.address_of (JStr ("https://" +:+ host)) = Ok (rstrip "/" host) /\
  CalendarAPI.address_of (JStr host) = Ok (rstrip "/" host).
Proof.
  intros H1 H2. unfold CalendarAPI.address_of. repeat split; f_equal; f_equal.
  - rewrite (replace_head "h" "ttp://" "" host).
    change ("" +:+ ?x) with x.
    rewrite (replace_absent "http://") by exact H1.
    apply replace_absent, H2.
  - rewrite (replace_absent "http://").
    + rewrite (replace_head "h" "ttps://" "" host). apply replace_absent, H2.
    + change ("https://" +:+ host)
        with (String "h" (String "t" (String "t" (String "p" (String "s"
               (String ":" (String "/" (String "/" host)))))))).
      simpl. exact H1.
  - rewrite (replace_absent "http://") by exact H1. apply replace_absent, H2.
Qed.

Section ClientExtras.
Variable env : Env.

(** Property X7.  A resolved address never ends with a slash. *)
Theorem resolved_address_has_no_trailing_slash r ip :
  CalendarAPI.discovery_result r = Ok ip ->
  forall p, ip <> p +:+ "/".
Proof.
  unfold CalendarAPI.discovery_result. intros H p.
  destruct r as [msg|status body]; [discriminate|].
  destruct (CalendarAPI.raise_for_status status); [|discriminate].
  destruct (CalendarAPI.response_json body) as [data|]; [|discriminate].
  destruct (CalendarAPI.py_get data "code") as [code|]; [|discriminate].
  destruct (CalendarAPI.eq_200 code && CalendarAPI.py_in "api" data); [|discriminate].
  destruct (CalendarAPI.py_get data "api") as [api_url|]; [|discriminate].
  unfold CalendarAPI.address_of in H.
  destruct api_url; try discriminate. injection H as <-.
  apply rstrip_no_trailing.
Qed.




End ClientExtras.

(** * A forced retrieval when the database or the network fails *)

Section ForcedExtras.
Variable env : Env.





End ForcedExtras.

(** * A retrieval when the database is out of order *)

Section DatabaseDown.
Variable env : Env.



(** Property X16.  A store that cannot be built fails the retrieval before
    anything else is done: the error of the database is raised, wrapped; no
    request was sent and no call of the store was made; the next call will try
    to build the store again. *)
Theorem retrieval_fails_early_without_store y m d force w e w1 :
  SQLiteDB.get_db env w = (Raise e, w1) ->
  get_calander_info env y m d force w = (Raise (Wrapped retrieval_error e), w1) /\
  requests_made w1 = requests_made w /\
  trace w1 = trace w /\
  db_instance w1 = false /\
  (exists f, e = DatabaseError f).
Proof.
  intros H. unfold get_calander_info, try_wrap, try_except, raise.
  unfold bind at 1. rewrite H. split; [reflexivity|].
  destruct (get_db_cases env w) as
    [(w2 & H1 & _) | (f & w2 & H1 & Hi & Ht)]; [congruence|].
  rewrite H1 in H. injection H as <- <-.
  unfold SQLiteDB.get_db in H1. rewrite Hi in H1.
  destruct (SQLiteDB.__init__ env w) as [[[]|e] w3] eqn:E; [discriminate H1|].
  injection H1 as -> ->.
  assert (Hw : requests_made w2 = requests_made w /\ db_instance w2 = false).
  { unfold SQLiteDB.__init__, bind, SQLiteDB._init_connection in E.
    cbn [db_ops] in E.
    destruct (db_fault env (db_ops w)) as [[| [|n] |]|] eqn:E0;
      try (injection E as _ <-; simpl; auto).
    all: unfold SQLiteDB._init_tables, SQLiteDB.get_connection, bind in E.
    all: cbn [db_ops day_calendar hour_calendar db_instance] in E.
    all: destruct (db_fault env (S (db_ops w))) as [[| [|[|[|[|n']]]] |]|];
      simpl in E; try discriminate E; injection E as _ <-; simpl; auto. }
  destruct Hw. repeat split; eauto.
Qed.

End DatabaseDown.

(** * The key of a date *)

Module DateFacts.
#[local] Arguments String.append !s1 s2 : simpl nomatch.

Lemma uint_no_dash d : occurs "-" (NilEmpty.string_of_uint d) = false.
Proof. induction d; simpl; auto. Qed.

Lemma uint_nonempty d : d <> Decimal.Nil -> NilEmpty.string_of_uint d <> "".
Proof. destruct d; simpl; congruence. Qed.

Lemma occurs_head c s : occurs (String c "") (String c s) = true.
Proof.
  cbn [occurs String.prefix]. destruct (ascii_dec c c); [|congruence].
  destruct s; reflexivity.
Qed.

(** The text before the first dash, and the text after it. *)
Lemma split_at_dash a b r r' :
  occurs "-" a = false -> occurs "-" b = false ->
  a +:+ String "-" r = b +:+ String "-" r' -> a = b /\ r = r'.
Proof.
  revert b. induction a as [|c a IH]; intros [|c' b]; intros Ha Hb H; simpl in H.
  - injection H as ->. auto.
  - injection H as <- _. rewrite occurs_head in Hb. discriminate Hb.
  - injection H as -> _. rewrite occurs_head in Ha. discriminate Ha.
  - injection H as -> H.
    cbn [occurs] in Ha, Hb.
    apply orb_false_iff in Ha as [_ Ha]. apply orb_false_iff in Hb as [_ Hb].
    destruct (IH b Ha Hb H) as [-> ->]. auto.
Qed.

Lemma numeral_split x x' r r' :
  numeral x -> numeral x' ->
  x +:+ String "-" r = x' +:+ String "-" r' -> x = x' /\ r = r'.
Proof.
  intros (u & Hu & Hn & [->| ->]) (u' & Hu' & Hn' & [->| ->]) H.
  - apply split_at_dash; assumption.
  - destruct u as [|c u]; [congruence|]. simpl in H. injection H as -> _.
    rewrite occurs_head in Hu. discriminate Hu.
  - destruct u' as [|c u']; [congruence|]. simpl in H. injection H as <- _.
    rewrite occurs_head in Hu'. discriminate Hu'.
  - simpl in H. injection H as H.
    destruct (split_at_dash _ _ _ _ Hu Hu' H) as [-> ->]. auto.
Qed.

Lemma str_uint_numeral p :
  occurs "-" (NilZero.string_of_uint (Pos.to_uint p)) = false /\
  NilZero.string_of_uint (Pos.to_uint p) <> "".
Proof.
  pose proof (Unsigned.to_uint_nonnil p) as Hn.
  unfold NilZero.string_of_uint.
  destruct (Pos.to_uint p) eqn:E; try congruence;
    rewrite <- E; (split; [apply uint_no_dash | apply uint_nonempty; congruence]).
Qed.

Lemma str_int_numeral z : numeral (str_int z).
Proof.
  unfold str_int. destruct z as [|p|p].
  - exists "0". split; [reflexivity|]. split; [discriminate|]. left. reflexivity.
  - exists (NilZero.string_of_uint (Pos.to_uint p)).
    destruct (str_uint_numeral p). split; [|split]; auto.
  - exists (NilZero.string_of_uint (Pos.to_uint p)).
    destruct (str_uint_numeral p). split; [|split]; auto.
Qed.

Lemma str_int_inj a b : str_int a = str_int b -> a = b.
Proof.
  unfold str_int. intros H. apply DecimalZ.to_int_inj.
  assert (Hnn : forall z, Z.to_int z <> Decimal.Pos Decimal.Nil /\
                          Z.to_int z <> Decimal.Neg Decimal.Nil).
  { intros [|p|p]; split; try discriminate;
      intros E; injection E as E; exact (Unsigned.to_uint_nonnil p E). }
  assert (E : Some (Z.to_int a) = Some (Z.to_int b)).
  { rewrite <- (NilZero.isi (Z.to_int a)), <- (NilZero.isi (Z.to_int b));
      try apply Hnn. rewrite H. reflexivity. }
  congruence.
Qed.

(** No numeral of two characters or more starts with a zero. *)
Lemma str_int_no_leading_zero z c r : str_int z <> String "0" (String c r).
Proof.
  unfold str_int. destruct z as [|p|p]; try discriminate.
  change (Z.to_int (Z.pos p)) with (Decimal.Pos (Pos.to_uint p)).
  unfold NilZero.string_of_int, NilZero.string_of_uint.
  pose proof (to_uint_head p) as Hh.
  destruct (Pos.to_uint p) eqn:E; simpl; try discriminate.
  exfalso. exact (Hh _ eq_refl).
Qed.

Lemma fmt_02d_numeral z : numeral (fmt_02d z).
Proof.
  unfold fmt_02d. destruct (Nat.ltb_spec (String.length (str_int z)) 2) as [Hl|Hl];
    [|apply str_int_numeral].
  destruct (str_int_numeral z) as (u & Hu & Hn & [E|E]).
  - exists (String "0" u). rewrite E. split; [exact Hu|]. split; [discriminate|].
    left. reflexivity.
  - rewrite E in Hl. destruct u; [congruence|]. simpl in Hl. lia.
Qed.

Lemma fmt_02d_inj a b : fmt_02d a = fmt_02d b -> a = b.
Proof.
  unfold fmt_02d.
  destruct (Nat.ltb_spec (String.length (str_int a)) 2) as [Ha|Ha];
    destruct (Nat.ltb_spec (String.length (str_int b)) 2) as [Hb|Hb]; intros H.
  - simpl in H. injection H as H. apply str_int_inj, H.
  - exfalso. destruct (str_int a) as [|c [|c' r]] eqn:E; simpl in Ha; try lia.
    + destruct (str_int_numeral a) as (u & _ & Hn & [E'|E']); congruence.
    + simpl in H. symmetry in H. exact (str_int_no_leading_zero _ _ _ H).
  - exfalso. destruct (str_int b) as [|c [|c' r]] eqn:E; simpl in Hb; try lia.
    + destruct (str_int_numeral b) as (u & _ & Hn & [E'|E']); congruence.
    + simpl in H. exact (str_int_no_leading_zero _ _ _ H).
  - apply str_int_inj, H.
Qed.

End DateFacts.
Import DateFacts.

(** Property X17.  Two dates have the same key only when they are the same
    date: the rows of two dates never collide, whatever the numbers passed for
    year, month and day. *)
Theorem date_str_injective y m d y' m' d' :
  date_str y m d = date_str y' m' d' -> y = y' /\ m = m' /\ d = d'.
Proof.
  unfold date_str. intros H.
  change ("-" +:+ ?x) with (String "-" x) in H.
  destruct (numeral_split _ _ _ _ (str_int_numeral y) (str_int_numeral y') H)
    as [Hy H1].
  destruct (numeral_split _ _ _ _ (fmt_02d_numeral m) (fmt_02d_numeral m') H1)
    as [Hm Hd].
  repeat split.
  - apply str_int_inj, Hy.
  - apply fmt_02d_inj, Hm.
  - apply fmt_02d_inj, Hd.
Qed.

(** * Questions *)

Module QuestionFacts.
#[local] Arguments String.append !s1 s2 : simpl nomatch.

Lemma range_forall (P : Z -> bool) lo len :
  forallb P (range lo len) = true ->
  forall z, (lo <= z < lo + len)%Z -> P z = true.
Proof.
  intros H z Hz. rewrite forallb_forall in H. apply H.
  unfold range. apply in_map_iff. exists (Z.to_nat (z - lo)). split; [lia|].
  apply in_seq. lia.
Qed.

Lemma str_int_four_digits y :
  (1000 <= y <= 9999)%Z -> str_int y = four_digits y.
Proof.
  intros Hy. apply String.eqb_eq.
  apply (range_forall (fun y => String.eqb (str_int y) (four_digits y)) 1000 9000);
    [vm_compute; reflexivity | lia].
Qed.

Lemma fmt_02d_two_digits m :
  (0 <= m <= 99)%Z -> fmt_02d m = two_digits m.
Proof.
  intros Hm. apply String.eqb_eq.
  apply (range_forall (fun m => String.eqb (fmt_02d m) (two_digits m)) 0 100);
    [vm_compute; reflexivity | lia].
Qed.

Lemma py_int_four_digits y :
  (1000 <= y <= 9999)%Z ->
  py_int [y / 1000; y / 100 mod 10; y / 10 mod 10; y mod 10]%Z = y.
Proof.
  intros Hy. apply Z.eqb_eq.
  apply (range_forall
           (fun y => Z.eqb (py_int [y / 1000; y / 100 mod 10; y / 10 mod 10; y mod 10]%Z) y)
           1000 9000); [vm_compute; reflexivity | lia].
Qed.

Lemma py_int_two_digits m :
  (0 <= m <= 99)%Z -> py_int [m / 10; m mod 10]%Z = m.
Proof.
  intros Hm. apply Z.eqb_eq.
  apply (range_forall (fun m => Z.eqb (py_int [m / 10; m mod 10]%Z) m) 0 100);
    [vm_compute; reflexivity | lia].
Qed.

Section WithHost.
Variable host : Host.

Lemma digit_at_char v r :
  (0 <= v <= 9)%Z -> digit_at host (String (digit_char v) r) = Some (v, r).
Proof.
  intros Hv.
  assert (Hc : (v = 0 \/ v = 1 \/ v = 2 \/ v = 3 \/ v = 4 \/ v = 5 \/ v = 6 \/
                v = 7 \/ v = 8 \/ v = 9)%Z) by lia.
  repeat (destruct Hc as [->|Hc]; [reflexivity|]). subst v. reflexivity.
Qed.

End WithHost.

Section QuestionLemmas.
Variable host : Host.
Variable env : Env.

Lemma re_search_head {R} (pattern : string -> option R) s x :
  pattern s = Some x -> re_search pattern s = Some x.
Proof. intros H. destruct s; simpl; rewrite H; reflexivity. Qed.

Lemma digit_bounds y :
  (1000 <= y <= 9999)%Z ->
  (0 <= y / 1000 <= 9 /\ 0 <= y / 100 mod 10 <= 9 /\
   0 <= y / 10 mod 10 <= 9 /\ 0 <= y mod 10 <= 9)%Z.
Proof. intros H. Z.div_mod_to_equations. lia. Qed.

Lemma digit_bounds2 m :
  (0 <= m <= 99)%Z -> (0 <= m / 10 <= 9 /\ 0 <= m mod 10 <= 9)%Z.
Proof. intros H. Z.div_mod_to_equations. lia. Qed.

(** The key of a date, as the store writes it, matches the first pattern
    where it stands. *)
Lemma date_pattern_date_str y m d rest :
  (1000 <= y <= 9999)%Z -> (0 <= m <= 99)%Z -> (0 <= d <= 99)%Z ->
  date_pattern host "-" "-" "" (date_str y m d +:+ rest)
  = Some ([y / 1000; y / 100 mod 10; y / 10 mod 10; y mod 10],
          [m / 10; m mod 10], [d / 10; d mod 10])%Z.
Proof.
  intros Hy Hm Hd. unfold date_str.
  rewrite str_int_four_digits, !fmt_02d_two_digits by assumption.
  destruct (digit_bounds y Hy) as (Y1 & Y2 & Y3 & Y4).
  destruct (digit_bounds2 m Hm) as (M1 & M2).
  destruct (digit_bounds2 d Hd) as (D1 & D2).
  unfold four_digits, two_digits. simpl String.append.
  unfold date_pattern. cbn [re_digits re_digits_upto].
  rewrite !digit_at_char by assumption. simpl app.
  unfold re_lit at 1. simpl Json.strip_prefix. cbv iota.
  cbn [re_digits re_digits_upto].
  rewrite !digit_at_char by assumption. simpl app.
  unfold re_lit at 1. simpl Json.strip_prefix. cbv iota.
  cbn [re_digits re_digits_upto].
  rewrite !digit_at_char by assumption. simpl app.
  unfold re_lit. simpl Json.strip_prefix. reflexivity.
Qed.

(** [answer_question] once the date is found. *)
Lemma answer_question_eq question force w g1 g2 g3 :
  match re_search (date_pattern host "-" "-" "") question with
  | Some groups => Some groups
  | None => re_search (date_pattern host "年" "月" "日") question
  end = Some (g1, g2, g3) ->
  answer_question host env question force w
  = let y := py_int g1 in
    let m := py_int g2 in
    let d := py_int g3 in
    match get_calander_info env y m d
            (force || any_in force_refresh_keywords question) w with
    | (Raise e, w') => (Ok (as_text host (Raise e)), w')
    | (Ok info, w') => (Ok (as_text host (consult host y m d info question)), w')
    end.
Proof.
  intros H. unfold answer_question, try_except. cbv zeta. rewrite H.
  replace (if negb force then any_in force_refresh_keywords question else force)
    with (force || any_in force_refresh_keywords question)
    by (destruct force; reflexivity).
  unfold bind at 1.
  destruct (get_calander_info env _ _ _ _ w) as [[info|e] w']; [|reflexivity].
  unfold consult, bind, of_res, ret, as_text.
  destruct (system_prompt host) as [sp|e]; [|reflexivity].
  destruct (render_user_prompt host _ _ _ _ _ _) as [up|e]; [|reflexivity].
  destruct (create_llm_client host) as [[]|e]; [|reflexivity].
  destruct (chat host sp up) as [a|e]; reflexivity.
Qed.

End QuestionLemmas.

End QuestionFacts.
Import QuestionFacts.

Module SearchFacts.
#[local] Arguments String.append !s1 s2 : simpl nomatch.

Lemma prefix_nil s : String.prefix "" s = true.
Proof. destruct s; reflexivity. Qed.

Lemma occurs_tail sub c s : occurs sub s = true -> occurs sub (String c s) = true.
Proof. intros H. cbn [occurs]. rewrite H. apply orb_true_r. Qed.

Lemma occurs_app sub p s : occurs sub s = true -> occurs sub (p +:+ s) = true.
Proof.
  intros H. induction p as [|c p IH]; simpl; [exact H|].
  apply occurs_tail, IH.
Qed.

Lemma strip_prefix_occurs lit s r :
  Json.strip_prefix lit s = Some r -> occurs lit s = true.
Proof.
  intros H.
  assert (Hp : String.prefix lit s = true).
  { revert s H. induction lit as [|a lit IH]; intros s H.
    - apply prefix_nil.
    - destruct s as [|b s]; [discriminate H|]. simpl in H.
      destruct (Ascii.eqb a b) eqn:E; [|discriminate H].
      apply Ascii.eqb_eq in E. subst b. simpl.
      destruct (ascii_dec a a); [|congruence]. apply IH, H. }
  destruct s; cbn [occurs]; rewrite Hp; reflexivity.
Qed.

Lemma decode_utf8_rest s cp r :
  decode_utf8 s = Some (cp, r) -> exists p, s = p +:+ r.
Proof.
  unfold decode_utf8. destruct s as [|b0 r0]; [discriminate|].
  destruct (N_of_ascii b0 <? 128)%N.
  { intros H. injection H as _ <-. exists (String b0 ""). reflexivity. }
  destruct (N_of_ascii b0 <? 192)%N; [discriminate|].
  destruct (N_of_ascii b0 <? 224)%N.
  { destruct r0 as [|b1 r1]; [discriminate|].
    destruct (_ && _); [|discriminate].
    intros H. injection H as _ <-. exists (String b0 (String b1 "")). reflexivity. }
  destruct (N_of_ascii b0 <? 240)%N.
  { destruct r0 as [|b1 [|b2 r2]]; try discriminate.
    destruct (_ && _); [|discriminate]. destruct (_ && _); [|discriminate].
    intros H. injection H as _ <-.
    exists (String b0 (String b1 (String b2 ""))). reflexivity. }
  destruct (N_of_ascii b0 <? 248)%N; [|discriminate].
  destruct r0 as [|b1 [|b2 [|b3 r3]]]; try discriminate.
  destruct (_ && _); [|discriminate]. destruct (_ && _); [|discriminate].
  destruct (_ && _); [|discriminate].
  intros H. injection H as _ <-.
  exists (String b0 (String b1 (String b2 (String b3 "")))). reflexivity.
Qed.

Section WithHost.
Variable host : Host.

Lemma digit_at_rest s v r : digit_at host s = Some (v, r) -> exists p, s = p +:+ r.
Proof.
  unfold digit_at. destruct (decode_utf8 s) as [[cp r']|] eqn:E; [|discriminate].
  destruct (digit_value host cp); [|discriminate].
  intros H. injection H as _ <-. eapply decode_utf8_rest, E.
Qed.

(** What follows some digits is found in the text they head. *)
Lemma re_digits_occurs {R} sub n (k : list Z -> string -> option R) :
  (forall g s x, k g s = Some x -> occurs sub s = true) ->
  forall g s x, re_digits host n k g s = Some x -> occurs sub s = true.
Proof.
  intros Hk. induction n as [|n IH]; intros g s x; simpl.
  - apply Hk.
  - destruct (digit_at host s) as [[v r]|] eqn:E; [|discriminate].
    intros H. destruct (digit_at_rest _ _ _ E) as [p ->].
    apply occurs_app. eapply IH, H.
Qed.

Lemma re_digits_upto_occurs {R} sub n (k : list Z -> string -> option R) :
  (forall g s x, k g s = Some x -> occurs sub s = true) ->
  forall g s x, re_digits_upto host n k g s = Some x -> occurs sub s = true.
Proof.
  intros Hk. induction n as [|n IH]; intros g s x; simpl.
  - apply Hk.
  - destruct (digit_at host s) as [[v r]|] eqn:E; [|apply Hk].
    destruct (re_digits_upto host n k (g ++ [v]) r) as [y|] eqn:E2; [|apply Hk].
    intros _. destruct (digit_at_rest _ _ _ E) as [p ->].
    apply occurs_app. eapply IH, E2.
Qed.

(** A text in which the pattern matches at the head holds the first
    separator. *)
Lemma date_pattern_occurs sep1 sep2 tail s x :
  date_pattern host sep1 sep2 tail s = Some x -> occurs sep1 s = true.
Proof.
  unfold date_pattern. apply re_digits_occurs.
  intros g t y. unfold re_lit at 1.
  destruct (Json.strip_prefix sep1 t) eqn:E; [|discriminate].
  intros _. eapply strip_prefix_occurs, E.
Qed.

Lemma re_search_none {R} (pattern : string -> option R) sub s :
  (forall t x, pattern t = Some x -> occurs sub t = true) ->
  occurs sub s = false -> re_search pattern s = None.
Proof.
  intros Hp. induction s as [|c s IH]; intros H; cbn [re_search].
  - destruct (pattern "") eqn:E; [|reflexivity].
    rewrite (Hp _ _ E) in H. discriminate H.
  - destruct (pattern (String c s)) eqn:E.
    + rewrite (Hp _ _ E) in H. discriminate H.
    + apply IH. cbn [occurs] in H. apply orb_false_iff in H. tauto.
Qed.

End WithHost.
End SearchFacts.
Import SearchFacts.

(** Property X18.  The key of a date is padded with zeros: a year of four
    digits, a month and a day below 100 give ten characters, four digits, two
    and two, with a dash between. *)
Theorem date_str_is_zero_padded y m d :
  (1000 <= y <= 9999)%Z -> (0 <= m <= 99)%Z -> (0 <= d <= 99)%Z ->
  date_str y m d = four_digits y +:+ "-" +:+ two_digits m +:+ "-" +:+ two_digits d /\
  String.length (date_str y m d) = 10.
Proof.
  intros Hy Hm Hd. unfold date_str.
  rewrite str_int_four_digits, !fmt_02d_two_digits by assumption.
  split; reflexivity.
Qed.

Section QuestionExtras.
Variable host : Host.
Variable env : Env.

(** Property X19.  A question that begins with the key of a date, as the store
    writes it, is answered from the retrieval of that date, forced when the
    caller says so or when the question holds one of the words that ask for
    fresh data. An exception of the retrieval, of the templates or of the
    model is returned as text. No check is made that the month and the day
    exist. *)
Theorem question_with_key_retrieves_that_date y m d rest force w :
  (1000 <= y <= 9999)%Z -> (0 <= m <= 99)%Z -> (0 <= d <= 99)%Z ->
  let question := date_str y m d +:+ rest in
  answer_question host env question force w
  = match get_calander_info env y m d
            (force || any_in force_refresh_keywords question) w with
    | (Raise e, w') => (Ok (as_text host (Raise e)), w')
    | (Ok info, w') => (Ok (as_text host (consult host y m d info question)), w')
    end.
Proof.
  intros Hy Hm Hd question.
  rewrite (answer_question_eq host env question force w _ _ _
             ltac:(unfold question;
                   rewrite (re_search_head _ _ _
                              (date_pattern_date_str host y m d rest Hy Hm Hd));
                   reflexivity)).
  cbv zeta.
  rewrite py_int_four_digits, !py_int_two_digits by assumption. reflexivity.
Qed.

(** Property X21.  A question with no dash and no 年 holds no date: the fixed
    message is returned and nothing is done, no connection opened and no
    request sent. *)
Theorem question_without_date_is_refused question force w :
  occurs "-" question = false -> occurs "年" question = false ->
  answer_question host env question force w = (Ok no_date_message, w).
Proof.
  intros H1 H2. unfold answer_question, try_except. cbv zeta.
  rewrite (re_search_none (date_pattern host "-" "-" "") "-" question)
    by (try exact H1; intros t x; apply date_pattern_occurs).
  rewrite (re_search_none (date_pattern host "年" "月" "日") "年" question)
    by (try exact H2; intros t x; apply date_pattern_occurs).
  reflexivity.
Qed.

(** Property X22.  [answer_question] never raises; it sends at most four
    requests and opens at most six connections, and deletes no row. *)
Theorem answer_question_never_raises question force w :
  let r := answer_question host env question force w in
  (exists s, fst r = Ok s) /\
  requests_made w <= requests_made (snd r) <= requests_made w + 4 /\
  db_ops w <= db_ops (snd r) <= db_ops w + 6 /\
  (forall f date row, table f w !! date = Some row ->
     exists row', table f (snd r) !! date = Some row' /\
                  create_time row' = create_time row).
Proof.
  intros r. subst r.
  destruct (match re_search (date_pattern host "-" "-" "") question with
            | Some groups => Some groups
            | None => re_search (date_pattern host "年" "月" "日") question
            end) as [[[g1 g2] g3]|] eqn:E.
  - rewrite (answer_question_eq host env question force w g1 g2 g3 E). cbv zeta.
    destruct (uses_get_calander_info env (py_int g1) (py_int g2) (py_int g3)
                (force || any_in force_refresh_keywords question) w)
      as (_ & K & Rq & Dq & _).
    destruct (get_calander_info env _ _ _ _ w) as [[info|e] w']; simpl in *;
      (split; [eauto|]); auto.
  - unfold answer_question, try_except. cbv zeta. rewrite E. simpl.
    split; [eauto|]. split; [lia|]. split; [lia|]. eauto.
Qed.

End QuestionExtras.

Module SpelledFacts.
#[local] Arguments String.append !s1 s2 : simpl nomatch.

Lemma str_int_one_digit m :
  (0 <= m <= 9)%Z -> str_int m = String (digit_char m) "".
Proof.
  intros Hm. apply String.eqb_eq.
  apply (range_forall (fun m => String.eqb (str_int m) (String (digit_char m) "")) 0 10);
    [vm_compute; reflexivity | lia].
Qed.

Lemma str_int_two_digits m :
  (10 <= m <= 99)%Z -> str_int m = two_digits m.
Proof.
  intros Hm. apply String.eqb_eq.
  apply (range_forall (fun m => String.eqb (str_int m) (two_digits m)) 10 90);
    [vm_compute; reflexivity | lia].
Qed.

Section WithHost.
Variable host : Host.

(** [\d{1,2}] reads a number below 100 that is followed by no digit. *)
Lemma one_or_two_digits {R} (k : list Z -> string -> option R) m t :
  (0 <= m <= 99)%Z -> digit_at host t = None ->
  exists g, py_int g = m /\
    forall x, k g t = Some x ->
      re_digits host 1 (re_digits_upto host 1 k) [] (str_int m +:+ t) = Some x.
Proof.
  intros Hm Ht. destruct (Z.ltb_spec m 10) as [Hlt|Hge].
  - exists [m]. split; [unfold py_int; simpl; lia|]. intros x Hx.
    rewrite str_int_one_digit by lia. simpl String.append.
    cbn [re_digits re_digits_upto]. rewrite digit_at_char by lia.
    simpl app. rewrite Ht. exact Hx.
  - exists [m / 10; m mod 10]%Z. split; [apply py_int_two_digits; lia|].
    intros x Hx. rewrite str_int_two_digits by lia.
    destruct (digit_bounds2 m Hm) as (M1 & M2).
    unfold two_digits. simpl String.append.
    cbn [re_digits re_digits_upto]. rewrite !digit_at_char by assumption.
    simpl app. rewrite Hx. reflexivity.
Qed.

Lemma not_a_digit_yue t :
  unicode_decimal host 26376 = None -> digit_at host ("月" +:+ t) = None.
Proof.
  intros H. unfold digit_at.
  replace (decode_utf8 ("月" +:+ t)) with (Some (26376%N, t)) by reflexivity.
  unfold digit_value. change (26376 <? 128)%N with false. cbv iota.
  rewrite H. reflexivity.
Qed.

Lemma not_a_digit_ri t :
  unicode_decimal host 26085 = None -> digit_at host ("日" +:+ t) = None.
Proof.
  intros H. unfold digit_at.
  replace (decode_utf8 ("日" +:+ t)) with (Some (26085%N, t)) by reflexivity.
  unfold digit_value. change (26085 <? 128)%N with false. cbv iota.
  rewrite H. reflexivity.
Qed.

(** The date written with 年, 月 and 日 matches the second pattern where
    it stands. *)
Lemma date_pattern_nian y m d rest :
  (1000 <= y <= 9999)%Z -> (0 <= m <= 99)%Z -> (0 <= d <= 99)%Z ->
  unicode_decimal host 26376 = None ->
  unicode_decimal host 26085 = None ->
  exists g1 g2 g3,
    py_int g1 = y /\ py_int g2 = m /\ py_int g3 = d /\
    date_pattern host "年" "月" "日"
      (str_int y +:+ "年" +:+ str_int m +:+ "月" +:+ str_int d +:+ "日" +:+ rest)
    = Some (g1, g2, g3).
Proof.
  intros Hy Hm Hd Hyue Hri.
  destruct (digit_bounds y Hy) as (Y1 & Y2 & Y3 & Y4).
  set (g1 := [y / 1000; y / 100 mod 10; y / 10 mod 10; y mod 10]%Z).
  destruct (one_or_two_digits
              (fun g2 =>
                 re_lit "月"
                   (re_digits host 1
                      (re_digits_upto host 1
                         (fun g3 => re_lit "日" (fun _ => Some (g1, g2, g3))))
                      []))
              m ("月" +:+ str_int d +:+ "日" +:+ rest) Hm
              (not_a_digit_yue _ Hyue)) as (g2 & Hg2 & Hm2).
  destruct (one_or_two_digits
              (fun g3 => re_lit "日" (fun _ => Some (g1, g2, g3)))
              d ("日" +:+ rest) Hd (not_a_digit_ri rest Hri)) as (g3' & Hg3' & Hd3).
  exists g1, g2, g3'. split; [apply py_int_four_digits, Hy|].
  split; [exact Hg2|]. split; [exact Hg3'|].
  rewrite str_int_four_digits by exact Hy. unfold four_digits.
  simpl String.append. unfold date_pattern. cbn [re_digits].
  rewrite !digit_at_char by assumption. simpl app. fold g1.
  unfold re_lit at 1. simpl Json.strip_prefix. cbv iota.
  apply Hm2. unfold re_lit at 1. simpl Json.strip_prefix. cbv iota.
  apply Hd3. unfold re_lit. simpl Json.strip_prefix. reflexivity.
Qed.

End WithHost.
End SpelledFacts.
Import SpelledFacts.

Section ChineseDate.
Variable host : Host.
Variable env : Env.

(** Property X20.  A question that begins with a date written with 年, 月 and 日,
    and holds no dash, is answered from the retrieval of that date: the second
    pattern is tried when the first finds nothing. *)
Theorem question_with_nian_yue_ri_retrieves_that_date y m d rest force w :
  let question :=
    str_int y +:+ "年" +:+ str_int m +:+ "月" +:+ str_int d +:+ "日" +:+ rest in
  (1000 <= y <= 9999)%Z -> (0 <= m <= 99)%Z -> (0 <= d <= 99)%Z ->
  unicode_decimal host 26376 = None ->
  unicode_decimal host 26085 = None ->
  occurs "-" question = false ->
  answer_question host env question force w
  = match get_calander_info env y m d
            (force || any_in force_refresh_keywords question) w with
    | (Raise e, w') => (Ok (as_text host (Raise e)), w')
    | (Ok info, w') => (Ok (as_text host (consult host y m d info question)), w')
    end.
Proof.
  intros question Hy Hm Hd Hyue Hri Hdash.
  destruct (date_pattern_nian host y m d rest Hy Hm Hd Hyue Hri)
    as (g1 & g2 & g3 & H1 & H2 & H3 & Hp).
  rewrite (answer_question_eq host env question force w g1 g2 g3).
  - cbv zeta. rewrite H1, H2, H3. reflexivity.
  - rewrite (re_search_none (date_pattern host "-" "-" "") "-" question)
      by (try exact Hdash; intros t x; apply date_pattern_occurs).
    apply re_search_head. exact Hp.
Qed.

End ChineseDate.

(** * The further properties on sample worlds *)


(** X2 on a sample world: a record saved in the empty store and read back. *)
Lemma saved_value_witness :
  let env := sample_env no_fault in
  let w := world_with ∅ ∅ in
  let w' := snd (SQLiteDB.save_calendar env Hour sample_date sample_hour w) in
  wf_json sample_hour /\
  SQLiteDB.save_calendar env Hour sample_date sample_hour w = (Ok true, w') /\
  fst (SQLiteDB.get_calendar env Hour sample_date w') = Ok sample_hour.
Proof.
  intros env w w'.
  assert (Hwf : wf_json sample_hour)
    by (simpl; repeat split;
        apply (bool_decide_unpack (NoDup _)); vm_compute; exact I).
  assert (H : SQLiteDB.save_calendar env Hour sample_date sample_hour w = (Ok true, w'))
    by (vm_compute; reflexivity).
  split; [exact Hwf|]. split; [exact H|].
  apply (saved_value_is_read_back env Hour sample_date sample_hour w w' Hwf H).
  reflexivity.
Defined.

(** X4 on a sample world: the store built from nothing. *)
Lemma get_db_witness :
  let env := sample_env no_fault in
  let w' := snd (SQLiteDB.get_db env empty_world) in
  SQLiteDB.get_db env empty_world = (Ok tt, w') /\
  db_instance w' = true /\
  SQLiteDB.get_db env w' = (Ok tt, w').
Proof.
  intros env w'.
  assert (H : SQLiteDB.get_db env empty_world = (Ok tt, w')) by (vm_compute; reflexivity).
  split; [exact H|].
  destruct (get_db_builds_once env empty_world _ _ H) as (_ & _ & _ & _ & Hi & Hagain).
  split; assumption.
Defined.

(** X6 on a sample world: the address the sample discovery names. *)
Lemma address_witness :
  occurs "http://" "10.0.0.7:8080/" = false /\
  occurs "https://" "10.0.0.7:8080/" = false /\
  CalendarAPI.address_of (JStr "https://10.0.0.7:8080/") = Ok "10.0.0.7:8080".
Proof.
  assert (H1 : occurs "http://" "10.0.0.7:8080/" = false) by reflexivity.
  assert (H2 : occurs "https://" "10.0.0.7:8080/" = false) by reflexivity.
  split; [exact H1|]. split; [exact H2|].
  exact (proj1 (proj2 (address_drops_scheme_and_slashes "10.0.0.7:8080/" H1 H2))).
Defined.

(** X7 on a sample world: the address of the sample discovery. *)
Lemma resolved_address_witness :
  let r := net (sample_env no_fault) 0 (CalendarAPI.discovery_request sample_api) in
  CalendarAPI.discovery_result r = Ok sample_ip /\
  sample_ip <> "10.0.0.7:8080" +:+ "/".
Proof.
  intros r.
  assert (H : CalendarAPI.discovery_result r = Ok sample_ip) by (vm_compute; reflexivity).
  split; [exact H|].
  exact (resolved_address_has_no_trailing_slash r sample_ip H "10.0.0.7:8080").
Defined.




(** X17 on a sample world: two spellings of the first of January. *)
Lemma date_str_witness :
  date_str 2025 1 1 = date_str (2000 + 25) (3 - 2) 1 /\
  (2025 = 2000 + 25 /\ 1 = 3 - 2 /\ 1 = 1)%Z.
Proof.
  assert (H : date_str 2025 1 1 = date_str (2000 + 25) (3 - 2) 1) by reflexivity.
  split; [exact H|].
  exact (date_str_injective 2025 1 1 (2000 + 25) (3 - 2) 1 H).
Defined.

(** X18 on a sample world: the key of a day in March. *)
Lemma date_str_padded_witness :
  ((1000 <= 2025 <= 9999) /\ (0 <= 3 <= 99) /\ (0 <= 7 <= 99))%Z /\
  date_str 2025 3 7 = "2025-03-07" /\
  String.length (date_str 2025 3 7) = 10.
Proof.
  assert (Hy : (1000 <= 2025 <= 9999)%Z) by lia.
  assert (Hm : (0 <= 3 <= 99)%Z) by lia.
  assert (Hd : (0 <= 7 <= 99)%Z) by lia.
  split; [auto|].
  destruct (date_str_is_zero_padded 2025 3 7 Hy Hm Hd) as [H1 H2].
  split; [rewrite H1; reflexivity | exact H2].
Defined.

(** X19 on a sample world: a question about a day whose records are in the
    store, put to a model that repeats its prompt. *)
Lemma question_with_key_witness :
  let env := sample_env no_fault in
  let w := world_with {[sample_date := row_of (Some (Json.dumps sample_day))]}
                      {[sample_date := row_of (Some (Json.dumps sample_hour))]} in
  let question := date_str 2025 1 1 +:+ "宜嫁娶吗" in
  ((1000 <= 2025 <= 9999) /\ (0 <= 1 <= 99) /\ (0 <= 1 <= 99))%Z /\
  fst (answer_question echo_host env question false w)
    = Ok (question +:+ calendar_data sample_day sample_hour) /\
  requests_made (snd (answer_question echo_host env question false w)) = 0.
Proof.
  intros env w question.
  assert (Hy : (1000 <= 2025 <= 9999)%Z) by lia.
  assert (Hm : (0 <= 1 <= 99)%Z) by lia.
  split; [auto|].
  unfold question.
  rewrite (question_with_key_retrieves_that_date echo_host env 2025 1 1 "宜嫁娶吗"
             false w Hy Hm Hm).
  vm_compute. split; reflexivity.
Defined.

(** X21 on a sample world: a question that names no date. *)
Lemma question_without_date_witness :
  let question := "今天宜嫁娶吗" in
  occurs "-" question = false /\
  occurs "年" question = false /\
  answer_question bare_host (sample_env no_fault) question true empty_world
    = (Ok no_date_message, empty_world).
Proof.
  intros question.
  assert (H1 : occurs "-" question = false) by reflexivity.
  assert (H2 : occurs "年" question = false) by reflexivity.
  split; [exact H1|]. split; [exact H2|].
  exact (question_without_date_is_refused bare_host (sample_env no_fault)
           question true empty_world H1 H2).
Defined.

(** X20 on a sample world: the same day written with 年, 月 and 日, and a word
    that asks for fresh data. *)
Lemma question_with_nian_witness :
  let env := sample_env no_fault in
  let w := world_with ∅ ∅ in
  let question :=
    str_int 2025 +:+ "年" +:+ str_int 1 +:+ "月" +:+ str_int 1 +:+ "日" +:+ "的最新黄历" in
  question = "2025年1月1日的最新黄历" /\
  ((1000 <= 2025 <= 9999) /\ (0 <= 1 <= 99))%Z /\
  unicode_decimal echo_host 26376 = None /\
  unicode_decimal echo_host 26085 = None /\
  occurs "-" question = false /\
  fst (answer_question echo_host env question false w)
    = Ok (question +:+ calendar_data sample_day sample_hour) /\
  requests_made (snd (answer_question echo_host env question false w)) = 3.
Proof.
  intros env w question.
  assert (Hy : (1000 <= 2025 <= 9999)%Z) by lia.
  assert (Hm : (0 <= 1 <= 99)%Z) by lia.
  assert (H1 : unicode_decimal echo_host 26376 = None) by reflexivity.
  assert (H2 : unicode_decimal echo_host 26085 = None) by reflexivity.
  assert (H3 : occurs "-" question = false) by reflexivity.
  split; [reflexivity|]. split; [auto|]. split; [exact H1|]. split; [exact H2|].
  split; [exact H3|].
  unfold question.
  rewrite (question_with_nian_yue_ri_retrieves_that_date echo_host env 2025 1 1
             "的最新黄历" false w Hy Hm Hm H1 H2 H3).
  vm_compute. split; reflexivity.
Defined.


(** X16 on a sample world: the first connection cannot be opened. *)
Lemma fails_early_witness :
  let env := sample_env (fun _ => Some FConnect) in
  let w1 := snd (SQLiteDB.get_db env empty_world) in
  SQLiteDB.get_db env empty_world = (Raise (DatabaseError FConnect), w1) /\
  get_calander_info env 2025 1 1 false empty_world
    = (Raise (Wrapped retrieval_error (DatabaseError FConnect)), w1) /\
  requests_made w1 = 0.
Proof.
  intros env w1.
  assert (H : SQLiteDB.get_db env empty_world = (Raise (DatabaseError FConnect), w1))
    by (vm_compute; reflexivity).
  split; [exact H|].
  destruct (retrieval_fails_early_without_store env 2025 1 1 false empty_world _ _ H)
    as (H1 & H2 & _).
  split; [exact H1 | exact H2].
Defined.
